(** * The remote D1 export command: poll loop and download

    A shallow embedding of [exportRemotely] and [pollExport] from the
    wrangler [d1 export] command.  The command talks to three parts of its
    host: the Cloudflare API ([fetchResult]), plain HTTP ([fetch] from
    undici) and the local file system ([fs.writeFile]); it prints through
    [logger.log] and [console.log].  All of these are effects, so the code
    is embedded in a small monad that threads the state of the host, records
    every effect in a trace, and stops at the first exception.

    [pollExport] calls itself once per [active] reply and the server decides
    how often that happens, so the embedding takes a bound on the number of
    polls; a run that uses up the bound is [Pending], neither returned nor
    thrown. *)

From Stdlib Require Import Ascii String NArith DecimalString DecimalN DecimalPos.
From stdpp Require Import gmap strings list sorting.

Open Scope string_scope.
Open Scope list_scope.

(** ** Values *)

(** [new Error(message)], and whatever a host operation rejects with. *)
Record Exn := JsError { message : string }.

(** How an awaited host operation settles. *)
Inductive Completion (A : Type) : Type :=
| Resolved (a : A)
| Rejected (e : Exn).
Arguments Resolved {A} a.
Arguments Rejected {A} e.

(** [num_parts_uploaded] is a JavaScript number.  It starts at 0 and only
    ever changes through [+:+], so its values are the integers from 0 up to
    2^53: below 2^53 the sum [n + 1] is exact, and at 2^53 it is a tie that
    rounds to even, which gives 2^53 back. *)
Definition MAX_EXACT : N := 9007199254740992.

Definition js_incr (n : N) : N :=
  if (n <? MAX_EXACT)%N then N.succ n else n.

(** [`${n}`] for such a number: its decimal digits. *)
Definition js_number_to_string (n : N) : string :=
  NilZero.string_of_uint (N.to_uint n).

(** [line.startsWith(p)] *)
Definition startsWith (line p : string) : bool := String.prefix p line.

(** [xs.join(sep)] on an array of strings. *)
Definition join (sep : string) (xs : list string) : string :=
  String.concat sep xs.

Definition newline : string := String "010"%char EmptyString.

(** ** Requests and replies of the export endpoint *)

Record Database := { uuid : string }.

(** The [dumpOptions] object built by [exportRemotely]; [noSchema] and
    [noData] may be [undefined]. *)
Record DumpOptions := {
  noSchema : option bool;
  noData : option bool;
  tables : list string
}.

(** [{ ...dumpOptions, limit: 790000 }] *)
Record BodyDumpOptions := {
  spread : DumpOptions;
  limit : N
}.

(** The object handed to [JSON.stringify]; a [currentBookmark] that is
    [undefined] is left out of the JSON text. *)
Record RequestBody := {
  outputFormat : string;
  dumpOptions : BodyDumpOptions;
  currentBookmark : option string
}.

Record Request := {
  url : string;
  method : string;
  headers : list (string * string);
  body : RequestBody
}.

Record ArtifactHandle := { filename : string; signedUrl : string }.

(** The [status] tag; [complete] alone carries a [result]. *)
Inductive Status :=
| StActive
| StError
| StComplete (handle : ArtifactHandle).

Record ExportResult := {
  at_bookmark : string;
  messages : list string;
  errors : list string;
  status : Status
}.

(** [PollingResponse]: the envelope with [success: true]. *)
Record PollingResponse := { result : ExportResult }.

(** [PollingResponse | { success: false; error: string }] *)
Inductive Envelope :=
| Success (response : PollingResponse)
| Failure (error : string).

(** The reply of undici's [fetch]; [body] is a stream or [null], held here
    as the bytes the stream delivers. *)
Record FetchResponse := { fetch_body : option string }.

(** ** Host, world and traces *)

Inductive Event :=
| LoggerLog (line : string)
| ConsoleLog (line : string)
| ApiCall (req : Request) (reply : Completion Envelope)
| HttpGet (target : string) (reply : Completion FetchResponse)
| WriteFile (path data : string).

(** How a run of the command stands: it returned, it threw, or it is still
    polling when the bound on the number of polls is reached. *)
Inductive Outcome (A : Type) : Type :=
| Returned (a : A)
| Thrown (e : Exn)
| Pending.
Arguments Returned {A} a.
Arguments Thrown {A} e.
Arguments Pending {A}.

Section Command.

(** [Net] is the state of everything reached over the network, [Config] the
    wrangler configuration. *)
Context {Net Config : Type}.

(** The imported functions the command calls.  Each network operation reads
    and updates [Net] and either resolves or rejects. *)
Record Host := {
  requireAuth : Config -> Net -> Completion string * Net;
  getDatabaseByNameOrBinding :
    Config -> string -> string -> Net -> Completion Database * Net;
  fetchResult : Request -> Net -> Completion Envelope * Net;
  fetch : string -> Net -> Completion FetchResponse * Net;
  (** [Some e] when [fs.writeFile path data] rejects with [e]. *)
  writeFault : string -> string -> option Exn;
  chalk_gray : string -> string
}.

Record World := {
  net : Net;
  files : gmap string string
}.

Record Run (A : Type) := {
  trace : list Event;
  outcome : Outcome A;
  final : World
}.
Arguments trace {A} r.
Arguments outcome {A} r.
Arguments final {A} r.

Definition M (A : Type) : Type := World -> Run A.

Definition ret {A} (a : A) : M A :=
  fun w => {| trace := []; outcome := Returned a; final := w |}.

Definition throw {A} (e : Exn) : M A :=
  fun w => {| trace := []; outcome := Thrown e; final := w |}.

Definition pending {A} : M A :=
  fun w => {| trace := []; outcome := Pending; final := w |}.

(** [prepend t r]: the run [r], after the events [t]. *)
Definition prepend {A} (t : list Event) (r : Run A) : Run A :=
  {| trace := t ++ trace r; outcome := outcome r; final := final r |}.

Definition bind {A B} (m : M A) (k : A -> M B) : M B :=
  fun w =>
    let r := m w in
    match outcome r with
    | Returned a => prepend (trace r) (k a (final r))
    | Thrown e => {| trace := trace r; outcome := Thrown e; final := final r |}
    | Pending => {| trace := trace r; outcome := Pending; final := final r |}
    end.

#[local] Instance M_ret : MRet M := @ret.
#[local] Instance M_bind : MBind M := fun A B k m => bind m k.

Definition emit (ev : Event) : M unit :=
  fun w => {| trace := [ev]; outcome := Returned tt; final := w |}.

(** An awaited network operation: the reply is logged by [ev]. *)
Definition await {A} (op : Net -> Completion A * Net)
    (ev : Completion A -> list Event) : M A :=
  fun w =>
    let '(reply, n) := op (net w) in
    {| trace := ev reply;
       outcome := match reply with
                  | Resolved a => Returned a
                  | Rejected e => Thrown e
                  end;
       final := {| net := n; files := files w |} |}.

Variable host : Host.

Definition logger_log (line : string) : M unit := emit (LoggerLog line).
Definition console_log (line : string) : M unit := emit (ConsoleLog line).

(** [fs.writeFile(path, data)]: creates the file or replaces its contents. *)
Definition fs_writeFile (path data : string) : M unit :=
  fun w =>
    match writeFault host path data with
    | Some e => {| trace := []; outcome := Thrown e; final := w |}
    | None =>
        {| trace := [WriteFile path data];
           outcome := Returned tt;
           final := {| net := net w; files := <[path := data]> (files w) |} |}
    end.

(** ** [pollExport] *)

Definition swirl : string := "🌀 ".

Definition export_request (accountId : string) (db : Database)
    (options : DumpOptions) (bookmark : option string) : Request :=
  {| url := "/accounts/" +:+ accountId +:+ "/d1/database/" +:+ uuid db +:+ "/export";
     method := "POST";
     headers := [("x-d1-internal-env", "staging")];
     body := {| outputFormat := "polling";
                dumpOptions := {| spread := options; limit := 790000 |};
                currentBookmark := bookmark |} |}.

(** The [forEach] over [response.result.messages]; the callback updates
    [num_parts_uploaded], whose value after the loop is returned. *)
Fixpoint report_messages (lines : list string) (num_parts_uploaded : N) : M N :=
  match lines with
  | [] => ret num_parts_uploaded
  | line :: rest =>
      if startsWith line "Uploaded part" then
        let n := js_incr num_parts_uploaded in
        console_log (swirl +:+ "Uploaded part " +:+ js_number_to_string n);;
        report_messages rest n
      else
        console_log (swirl +:+ line);;
        report_messages rest num_parts_uploaded
  end.

(** [polls] bounds the number of requests; the other arguments are those of
    the source. *)
Fixpoint pollExport (polls : nat) (accountId : string) (db : Database)
    (options : DumpOptions) (bookmark : option string)
    (num_parts_uploaded : N) : M PollingResponse :=
  match polls with
  | O => pending
  | S polls =>
      let req := export_request accountId db options bookmark in
      response ← await (fetchResult host req) (fun reply => [ApiCall req reply]);
      match response with
      | Failure err => throw (JsError err)
      | Success response =>
          num_parts_uploaded ←
            report_messages (messages (result response)) num_parts_uploaded;
          match status (result response) with
          | StComplete _ => ret response
          | StError => throw (JsError (join newline (errors (result response))))
          | StActive =>
              pollExport polls accountId db options
                (Some (at_bookmark (result response))) num_parts_uploaded
          end
      end
  end.

(** ** [exportRemotely] *)

(** The code of [exportRemotely], with the statement guarded by
    [result.status !== "complete"] taken as the argument [on_reset].  The
    call of [pollExport] passes [undefined] for the bookmark and leaves
    [num_parts_uploaded] to its default, 0. *)
Definition exportRemotely_with (on_reset : M unit) (polls : nat)
    (config : Config) (name output : string) (tables_ : list string)
    (noSchema_ noData_ : option bool) : M unit :=
  accountId ← await (requireAuth host config) (fun _ => []);
  db ← await (getDatabaseByNameOrBinding host config accountId name) (fun _ => []);
  logger_log (swirl +:+ "Executing on remote database " +:+ name
              +:+ " (" +:+ uuid db +:+ "):");;
  logger_log (swirl +:+ "Creating export...");;
  let options :=
    {| noSchema := noSchema_; noData := noData_; tables := tables_ |} in
  response ← pollExport polls accountId db options None 0%N;
  match status (result response) with
  | StComplete handle =>
      logger_log (swirl +:+ "Downloading SQL to " +:+ output +:+ "...");;
      logger_log (chalk_gray host
        ("If this download fails, you can retry downloading the following URL manually. It is valid for 1 hour: "
         +:+ signedUrl handle));;
      contents ← await (fetch host (signedUrl handle))
                    (fun reply => [HttpGet (signedUrl handle) reply]);
      fs_writeFile output (default "" (fetch_body contents));;
      logger_log "Done!"
  | _ => on_reset
  end.

Definition exportRemotely : nat -> Config -> string -> string ->
    list string -> option bool -> option bool -> M unit :=
  exportRemotely_with (throw (JsError "Error: D1 reset before export completed!")).

End Command.

Arguments Host : clear implicits.
Arguments World : clear implicits.
Arguments Run : clear implicits.
Arguments M : clear implicits.
Arguments trace {Net A} r.
Arguments outcome {Net A} r.
Arguments final {Net A} r.

(** ** Reading a trace *)

Fixpoint api_calls (t : list Event) : list (Request * Completion Envelope) :=
  match t with
  | [] => []
  | ApiCall req reply :: t => (req, reply) :: api_calls t
  | _ :: t => api_calls t
  end.

Fixpoint console_lines (t : list Event) : list string :=
  match t with
  | [] => []
  | ConsoleLog line :: t => line :: console_lines t
  | _ :: t => console_lines t
  end.

Fixpoint http_gets (t : list Event) : list (string * Completion FetchResponse) :=
  match t with
  | [] => []
  | HttpGet target reply :: t => (target, reply) :: http_gets t
  | _ :: t => http_gets t
  end.

Fixpoint file_writes (t : list Event) : list (string * string) :=
  match t with
  | [] => []
  | WriteFile path data :: t => (path, data) :: file_writes t
  | _ :: t => file_writes t
  end.

(** The progress lines of one reply: those of a [success: true] envelope. *)
Definition lines_of (reply : Completion Envelope) : list string :=
  match reply with
  | Resolved (Success response) => messages (result response)
  | _ => []
  end.

(** All progress lines of an export, in the order they arrived. *)
Definition received_lines (calls : list (Request * Completion Envelope)) : list string :=
  flat_map (fun call => lines_of (snd call)) calls.

Definition is_part_line (line : string) : bool := startsWith line "Uploaded part".

(** How many of [lines] report an uploaded part. *)
Fixpoint count_parts (lines : list string) : N :=
  match lines with
  | [] => 0
  | line :: rest =>
      if is_part_line line then N.succ (count_parts rest) else count_parts rest
  end.

(** [text.includes(piece)], as a proposition. *)
Definition includes (text piece : string) : Prop :=
  exists before after, text = before +:+ piece +:+ after.

(** ** What [report_messages] prints and counts, as plain functions *)

Fixpoint printed (lines : list string) (n : N) : list string :=
  match lines with
  | [] => []
  | line :: rest =>
      if is_part_line line then
        (swirl +:+ "Uploaded part " +:+ js_number_to_string (js_incr n))
          :: printed rest (js_incr n)
      else (swirl +:+ line) :: printed rest n
  end.

Fixpoint counted (lines : list string) (n : N) : N :=
  match lines with
  | [] => n
  | line :: rest =>
      if is_part_line line then counted rest (js_incr n) else counted rest n
  end.

(** What [pollExport] does once it has printed the lines of a reply;
    [Pending] stands for the call to itself. *)
Definition verdict (reply : Completion Envelope) : Outcome PollingResponse :=
  match reply with
  | Rejected e => Thrown e
  | Resolved (Failure err) => Thrown (JsError err)
  | Resolved (Success response) =>
      match status (result response) with
      | StComplete _ => Returned response
      | StError => Thrown (JsError (join newline (errors (result response))))
      | StActive => Pending
      end
  end.

Section Polled.

Variables (accountId : string) (db : Database) (options : DumpOptions).

(** The runs of the poll loop, as a relation between the bookmark and the
    counter it starts with, the requests it makes with their replies, the
    lines it prints, and how it stands at the end. *)
Inductive polled : option string -> N -> list (Request * Completion Envelope) ->
    list string -> Outcome PollingResponse -> Prop :=
| polled_bound bookmark n :
    polled bookmark n [] [] Pending
| polled_last bookmark n reply :
    verdict reply <> Pending ->
    polled bookmark n
      [(export_request accountId db options bookmark, reply)]
      (printed (lines_of reply) n)
      (verdict reply)
| polled_again bookmark n response calls lines out :
    status (result response) = StActive ->
    polled (Some (at_bookmark (result response)))
      (counted (messages (result response)) n) calls lines out ->
    polled bookmark n
      ((export_request accountId db options bookmark, Resolved (Success response))
         :: calls)
      (printed (messages (result response)) n ++ lines)
      out.

End Polled.

(** ** A scripted host

    The API answers with the replies of a script, one per request, and
    rejects once the script is used up; the download answers [download]. *)
Definition scripted (download : Completion FetchResponse)
    : Host (list (Completion Envelope)) unit :=
  {| requireAuth := fun _ script => (Resolved "acct", script);
     getDatabaseByNameOrBinding :=
       fun _ _ _ script => (Resolved {| uuid := "db-uuid" |}, script);
     fetchResult := fun _ script =>
       match script with
       | [] => (Rejected (JsError "socket closed"), [])
       | reply :: rest => (reply, rest)
       end;
     fetch := fun _ script => (download, script);
     writeFault := fun _ _ => None;
     chalk_gray := fun text => text |}.

Definition reply_active (bookmark : string) (lines : list string) : Completion Envelope :=
  Resolved (Success {| result := {| at_bookmark := bookmark; messages := lines;
                                    errors := []; status := StActive |} |}).

Definition reply_error (lines errs : list string) : Completion Envelope :=
  Resolved (Success {| result := {| at_bookmark := "b-err"; messages := lines;
                                    errors := errs; status := StError |} |}).

Definition reply_complete (lines : list string) (handle : ArtifactHandle)
    : Completion Envelope :=
  Resolved (Success {| result := {| at_bookmark := "b-end"; messages := lines;
                                    errors := []; status := StComplete handle |} |}).

Definition dump_sql : ArtifactHandle :=
  {| filename := "dump.sql"; signedUrl := "https://x/y" |}.

Definition sql_body : Completion FetchResponse :=
  Resolved {| fetch_body := Some "CREATE TABLE users (id INTEGER);" |}.

Definition null_body : Completion FetchResponse :=
  Resolved {| fetch_body := None |}.

Definition world0 (script : list (Completion Envelope)) : World (list (Completion Envelope)) :=
  {| net := script; files := <["out.sql" := "stale"]> ∅ |}.

(** One export against the scripted host, as the command line
    [--table users --no-schema --output out.sql] starts it. *)
Definition scripted_export (download : Completion FetchResponse)
    (script : list (Completion Envelope)) : Run (list (Completion Envelope)) unit :=
  exportRemotely (scripted download) 10 tt "mydb" "out.sql" ["users"] (Some true) None
    (world0 script).

Definition script_parts : list (Completion Envelope) :=
  [ reply_active "b1" ["Uploaded part 7"; "Fetching schema"];
    reply_active "b2" ["Uploaded part 3"];
    reply_complete ["Uploaded part 9"] dump_sql ].

Definition script_error : list (Completion Envelope) :=
  [ reply_active "b1" [];
    reply_error [] ["disk full"; "quota exceeded"];
    reply_active "b3" [] ].

Definition script_failure : list (Completion Envelope) :=
  [ Resolved (Failure "bad request"); reply_active "b2" [] ].

(** ** [Handler] *)

(** The [table] argument as yargs delivers it: one string for one [--table],
    an array for several. *)
Inductive TableArg :=
| OneTable (table : string)
| ManyTables (tables : list string).

(** [HandlerOptions], the parsed command line; an option that was not given
    is [undefined]. *)
Module Args.

Record t := {
  local : option bool;
  remote : option bool;
  name : string;
  output : string;
  noSchema : option bool;
  noData : option bool;
  table : option TableArg;
  config : option string
}.

End Args.

(** [if (flag)] for a flag that is a boolean or [undefined]. *)
Definition flag_set (flag : option bool) : bool := default false flag.

(** [table ? (Array.isArray(table) ? table : [table]) : []]: [undefined]
    and the empty string are falsy, every array is truthy. *)
Definition tables_of (table : option TableArg) : list string :=
  match table with
  | None => []
  | Some (OneTable t) => if String.eqb t "" then [] else [t]
  | Some (ManyTables ts) => ts
  end.

Section HandlerCommand.

Context {Net Config : Type}.

(** What [Handler] imports beyond the host of [exportRemotely]. *)
Record CliHost := {
  export_host : Host Net Config;
  printWranglerBanner : Net -> Completion unit * Net;
  (** [readConfig(args.config, args)] returns or throws at once. *)
  readConfig : option string -> Args.t -> Completion Config
}.

(** A call that returns or throws without waiting. *)
Definition attempt {A} (c : Completion A) : M Net A :=
  fun w =>
    {| trace := [];
       outcome := match c with
                  | Resolved a => Returned a
                  | Rejected e => Thrown e
                  end;
       final := w |}.

Variable cli : CliHost.

#[local] Instance Handler_ret : MRet (M Net) := @ret Net.
#[local] Instance Handler_bind : MBind (M Net) := fun A B k m => bind m k.

(** [UserError] extends [Error]; what is kept of either is the message. *)
Definition Handler (polls : nat) (args : Args.t) : M Net unit :=
  await (printWranglerBanner cli) (fun _ => []);;
  config ← attempt (readConfig cli (Args.config args) args);
  if flag_set (Args.local args) then
    throw (JsError "Local imports/exports will be coming in a future version of Wrangler.")
  else if negb (flag_set (Args.remote args)) then
    throw (JsError "You must specify either --local or --remote")
  else
    let tables := tables_of (Args.table args) in
    result ← exportRemotely (export_host cli) polls config (Args.name args)
               (Args.output args) tables (Args.noSchema args) (Args.noData args);
    mret result.

End HandlerCommand.

Arguments CliHost : clear implicits.

(** The lines still to print when the events [t] are over, starting with
    [owed] of them: a reply adds its lines and may only come when none is
    left, a printed line takes one away.  [None] when [t] breaks that. *)
Fixpoint owed_after (owed : nat) (t : list Event) : option nat :=
  match t with
  | [] => Some owed
  | ApiCall _ reply :: t =>
      match owed with
      | O => owed_after (length (lines_of reply)) t
      | S _ => None
      end
  | ConsoleLog _ :: t =>
      match owed with
      | O => None
      | S owed => owed_after owed t
      end
  | _ :: t => owed_after owed t
  end.

(** * create-cloudflare: types for a new worker

    [getLatestTypesEntrypoint], [updateTsConfig] and [installWorkersTypes]
    of the workers generator.  They work on the project directory: a file
    is held as its path and its text; what the terminal shows and what is
    installed is kept in a list. *)

(** ** Strings *)

(** [\d] *)
Definition is_digit (c : ascii) : bool :=
  (48 <=? N_of_ascii c)%N && (N_of_ascii c <=? 57)%N.

Definition is_dash (c : ascii) : bool := Ascii.eqb c "-".

(** A pattern that is a row of character classes, tried at the start of
    [s]. *)
Fixpoint starts_with_classes (classes : list (ascii -> bool)) (s : string) : bool :=
  match classes with
  | [] => true
  | class :: classes =>
      match s with
      | EmptyString => false
      | String c s => class c && starts_with_classes classes s
      end
  end.

(** [/(\d{4})-(\d{2})-(\d{2})/] *)
Definition date_classes : list (ascii -> bool) :=
  [is_digit; is_digit; is_digit; is_digit; is_dash;
   is_digit; is_digit; is_dash; is_digit; is_digit].

(** [filename.match(/(\d{4})-(\d{2})-(\d{2})/)] is not [null]: the pattern
    is found at some place of [filename]. *)
Fixpoint has_date (filename : string) : bool :=
  starts_with_classes date_classes filename ||
  match filename with
  | EmptyString => false
  | String _ rest => has_date rest
  end.

Fixpoint string_drop (n : nat) (s : string) : string :=
  match n, s with
  | O, _ => s
  | S n, String _ s => string_drop n s
  | S _, EmptyString => EmptyString
  end.

(** [s.indexOf(pattern)], given as the text before the first occurrence
    of [pattern] and the text after it. *)
Fixpoint split_first (pattern s : string) : option (string * string) :=
  if String.prefix pattern s then
    Some (EmptyString, string_drop (String.length pattern) s)
  else
    match s with
    | EmptyString => None
    | String c rest =>
        match split_first pattern rest with
        | Some (before, after) => Some (String c before, after)
        | None => None
        end
    end.

(** [GetSubstitution] for a pattern that is a string, so without captures:
    [$$] is a dollar, [$&] the match, [$`] the text before it, [$'] the text
    after it; every other character stands for itself. *)
Fixpoint get_substitution (matched before after replacement : string) : string :=
  match replacement with
  | EmptyString => EmptyString
  | String "$" (String "$" rest) =>
      "$" +:+ get_substitution matched before after rest
  | String "$" (String "&" rest) =>
      matched +:+ get_substitution matched before after rest
  | String "$" (String "`" rest) =>
      before +:+ get_substitution matched before after rest
  | String "$" (String "'" rest) =>
      after +:+ get_substitution matched before after rest
  | String c rest => String c (get_substitution matched before after rest)
  end.

(** [s.replace(pattern, replacement)] for a pattern that is a string: the
    first occurrence only. *)
Definition js_replace (s pattern replacement : string) : string :=
  match split_first pattern s with
  | None => s
  | Some (before, after) =>
      before +:+ get_substitution pattern before after replacement +:+ after
  end.

(** ** The project *)

(** The part of [C3Context] the three functions read. *)
Module C3.

Record Project := { path : string; name : string }.
Record Args := { ts : option bool }.
Record Context := { project : Project; args : Args }.

End C3.

(** The options [installWorkersTypes] passes to [installPackages]. *)
Record InstallConfig := {
  dev : bool;
  startText : string;
  doneText : string
}.

Inductive Shown :=
| SpinnerStart (text : string)
| SpinnerStop (text : string)
| Installed (packages : list string) (config : InstallConfig).

(** [disk] gives the text of every file there is. *)
Record Project := {
  disk : gmap string string;
  shown : list Shown
}.

(** What the three functions import.  [path_join] and [path_resolve] are
    [join] and [resolve] of [path]; the helpers [readFile] and [writeFile]
    are taken to return and to replace the text of a file. *)
Record WorkersHost := {
  path_join : list string -> string;
  path_resolve : list string -> string;
  readdirSync : gmap string string -> string -> Completion (list string);
  read_error : string -> Exn;
  installPackages :
    list string -> InstallConfig -> gmap string string ->
    Completion unit * gmap string string;
  brandColor : string -> string;
  dim : string -> string;
  npm : string
}.

Definition W (A : Type) : Type := Project -> Completion A * Project.

Section Workers.

Variable host : WorkersHost.

#[local] Instance W_ret : MRet W := fun A a p => (Resolved a, p).
#[local] Instance W_bind : MBind W := fun A B k m p =>
  match m p with
  | (Resolved a, p') => k a p'
  | (Rejected e, p') => (Rejected e, p')
  end.

Definition show (s : Shown) : W unit :=
  fun p => (Resolved tt, {| disk := disk p; shown := shown p ++ [s] |}).

Definition existsSync (file : string) : W bool :=
  fun p => (Resolved (bool_decide (is_Some (disk p !! file))), p).

Definition readFile (file : string) : W string :=
  fun p =>
    match disk p !! file with
    | Some text => (Resolved text, p)
    | None => (Rejected (read_error host file), p)
    end.

Definition writeFile (file text : string) : W unit :=
  fun p => (Resolved tt, {| disk := <[file := text]> (disk p); shown := shown p |}).

(** [sorted] in the source: [entrypoints.filter(...).sort().reverse()];
    [sort] without a comparator puts strings in the order of their
    characters' codes. *)
Definition sorted_entrypoints (entrypoints : list string) : list string :=
  reverse (merge_sort String.le (List.filter has_date entrypoints)).

(** [null] is [None]. *)
Definition getLatestTypesEntrypoint (ctx : C3.Context) : W (option string) :=
  fun p =>
    let workersTypesPath :=
      path_resolve host
        [C3.path (C3.project ctx); "node_modules"; "@cloudflare"; "workers-types"] in
    match readdirSync host (disk p) workersTypesPath with
    | Resolved entrypoints =>
        match sorted_entrypoints entrypoints with
        | [] => (Resolved None, p)
        | latest :: _ => (Resolved (Some latest), p)
        end
    | Rejected _ => (Resolved None, p)
    end.

Definition updateTsConfig (ctx : C3.Context) : W unit :=
  let tsconfigPath := path_join host [C3.path (C3.project ctx); "tsconfig.json"] in
  found ← existsSync tsconfigPath;
  if negb found then mret tt
  else
    show (SpinnerStart "Adding latest types to `tsconfig.json`");;
    tsconfig ← readFile tsconfigPath;
    entrypointVersion ← getLatestTypesEntrypoint ctx;
    match entrypointVersion with
    | None =>
        show (SpinnerStop (brandColor host "skipped" +:+
          " couldn't find latest compatible version of @cloudflare/workers-types"))
    | Some entrypointVersion =>
        let typesEntrypoint := "@cloudflare/workers-types/" +:+ entrypointVersion in
        let updated := js_replace tsconfig "@cloudflare/workers-types" typesEntrypoint in
        writeFile tsconfigPath updated;;
        show (SpinnerStop (brandColor host "added" +:+ " " +:+ dim host typesEntrypoint))
    end.

Definition installWorkersTypes (ctx : C3.Context) : W unit :=
  if negb (flag_set (C3.ts (C3.args ctx))) then mret tt
  else
    (fun p =>
       let config :=
         {| dev := true;
            startText := "Installing @cloudflare/workers-types";
            doneText := brandColor host "installed" +:+ " " +:+
                        dim host ("via " +:+ npm host) |} in
       let '(done, files') :=
         installPackages host ["@cloudflare/workers-types"] config (disk p) in
       (done, {| disk := files';
                 shown := shown p ++ [Installed ["@cloudflare/workers-types"] config] |}));;
    updateTsConfig ctx.

End Workers.

(** A project directory for examples: [join] and [resolve] put slashes
    between the parts, and the directory of the types lists [entrypoints]. *)
Definition slashes (parts : list string) : string := String.concat "/" parts.

Definition example_host (entrypoints : Completion (list string)) : WorkersHost :=
  {| path_join := slashes;
     path_resolve := slashes;
     readdirSync := fun _ _ => entrypoints;
     read_error := fun file => JsError ("ENOENT: " +:+ file);
     installPackages := fun _ _ files =>
       (Resolved tt, <["/app/package-lock.json" := "{}"]> files);
     brandColor := fun text => text;
     dim := fun text => text;
     npm := "npm" |}.

Definition example_ctx (typescript : option bool) : C3.Context :=
  {| C3.project := {| C3.path := "/app"; C3.name := "app" |};
     C3.args := {| C3.ts := typescript |} |}.

Definition example_entrypoints : list string :=
  ["index.d.ts"; "2022-11-30"; "2023-07-01"; "experimental"; "2023-03-01";
   "package.json"].

Definition quote : string := String (ascii_of_nat 34) EmptyString.

Definition example_tsconfig : string :=
  "{ types: [" +:+ quote +:+ "@cloudflare/workers-types" +:+ quote +:+ "] }".

(** ** Compatibility dates

    The entry points of the types are named after compatibility dates,
    written [YYYY-MM-DD]. *)

Definition digit (n : N) : ascii := ascii_of_N (48 + n).

Definition two_digits (n : N) : string :=
  String (digit (n / 10)) (String (digit (n mod 10)) EmptyString).

Definition four_digits (n : N) : string :=
  two_digits (n / 100) +:+ two_digits (n mod 100).

Definition iso_date (y m d : N) : string :=
  four_digits y +:+ "-" +:+ two_digits m +:+ "-" +:+ two_digits d.

(** A date of four, two and two digits. *)
Definition is_date (y m d : N) : Prop := (y < 10000 /\ m < 100 /\ d < 100)%N.

(** [earlier_or_same a b]: the date [a] is not after the date [b]. *)
Definition earlier_or_same (a b : N * N * N) : Prop :=
  let '(y, m, d) := a in
  let '(y', m', d') := b in
  (y * 10000 + m * 100 + d <= y' * 10000 + m' * 100 + d')%N.

(** ** More scripted hosts *)

(** The command line on the scripted host: the banner prints and the
    configuration is read. *)
Definition scripted_cli (download : Completion FetchResponse)
    : CliHost (list (Completion Envelope)) unit :=
  {| export_host := scripted download;
     printWranglerBanner := fun script => (Resolved tt, script);
     readConfig := fun _ _ => Resolved tt |}.

Definition example_args (local remote : option bool) (table : option TableArg) : Args.t :=
  {| Args.local := local; Args.remote := remote;
     Args.name := "mydb"; Args.output := "out.sql";
     Args.noSchema := Some true; Args.noData := None;
     Args.table := table; Args.config := None |}.

Definition scripted_command (local remote : option bool) (table : option TableArg)
    (script : list (Completion Envelope)) : Run (list (Completion Envelope)) unit :=
  Handler (scripted_cli sql_body) 10 (example_args local remote table) (world0 script).

(** A host on which nobody is logged in. *)
Definition logged_out : Host (list (Completion Envelope)) unit :=
  {| requireAuth := fun _ script => (Rejected (JsError "Not logged in."), script);
     getDatabaseByNameOrBinding :=
       fun _ _ _ script => (Resolved {| uuid := "db-uuid" |}, script);
     fetchResult := fun _ script => (Rejected (JsError "socket closed"), script);
     fetch := fun _ script => (sql_body, script);
     writeFault := fun _ _ => None;
     chalk_gray := fun text => text |}.

(** A host whose export never finishes: every reply is [active]. *)
Definition always_active : Host unit unit :=
  {| requireAuth := fun _ n => (Resolved "acct", n);
     getDatabaseByNameOrBinding := fun _ _ _ n => (Resolved {| uuid := "db-uuid" |}, n);
     fetchResult := fun _ n => (reply_active "b" ["Uploaded part 1"], n);
     fetch := fun _ n => (sql_body, n);
     writeFault := fun _ _ => None;
     chalk_gray := fun text => text |}.

Definition script_dropped : list (Completion Envelope) :=
  [ reply_active "b1" ["Uploaded part 1"]; Rejected (JsError "socket hang up") ].

Definition example_project : Project :=
  {| disk := <["/app/tsconfig.json" := example_tsconfig]>
               (<["/app/package.json" := "{}"]> ∅);
     shown := [] |}.

Definition example_project_js : Project :=
  {| disk := <["/app/package.json" := "{}"]> ∅; shown := [] |}.

Definition example_project_plain : Project :=
  {| disk := <["/app/tsconfig.json" := "{ types: [] }"]> ∅; shown := [] |}.


(** * Properties *)

(** ** The monad and the printing loop *)

Ltac unfold_monad :=
  unfold mbind, M_bind, bind, mret, M_ret, ret, throw, pending, await,
    logger_log, console_log, emit, prepend in *.

Lemma report_messages_run {Net : Type} lines n (w : World Net) :
  report_messages lines n w =
  {| trace := map ConsoleLog (printed lines n);
     outcome := Returned (counted lines n);
     final := w |}.
Proof.
  revert n w. induction lines as [|line rest IH]; intros n w; [reflexivity|].
  cbn [report_messages printed counted]. unfold is_part_line.
  destruct (startsWith line "Uploaded part"); unfold_monad; cbn; by rewrite IH.
Qed.

Lemma api_calls_app t1 t2 : api_calls (t1 ++ t2) = api_calls t1 ++ api_calls t2.
Proof. induction t1 as [|[] t1 IH]; cbn; by rewrite ?IH. Qed.

Lemma console_lines_app t1 t2 :
  console_lines (t1 ++ t2) = console_lines t1 ++ console_lines t2.
Proof. induction t1 as [|[] t1 IH]; cbn; by rewrite ?IH. Qed.

Lemma http_gets_app t1 t2 : http_gets (t1 ++ t2) = http_gets t1 ++ http_gets t2.
Proof. induction t1 as [|[] t1 IH]; cbn; by rewrite ?IH. Qed.

Lemma file_writes_app t1 t2 : file_writes (t1 ++ t2) = file_writes t1 ++ file_writes t2.
Proof. induction t1 as [|[] t1 IH]; cbn; by rewrite ?IH. Qed.

Lemma api_calls_console lines : api_calls (map ConsoleLog lines) = [].
Proof. induction lines; [reflexivity | done]. Qed.

Lemma console_lines_console lines : console_lines (map ConsoleLog lines) = lines.
Proof. induction lines as [|l r IH]; [reflexivity|]. cbn. by rewrite IH. Qed.

Lemma http_gets_console lines : http_gets (map ConsoleLog lines) = [].
Proof. induction lines; [reflexivity | done]. Qed.

Lemma file_writes_console lines : file_writes (map ConsoleLog lines) = [].
Proof. induction lines; [reflexivity | done]. Qed.

Lemma api_calls_cons req reply t :
  api_calls (ApiCall req reply :: t) = (req, reply) :: api_calls t.
Proof. reflexivity. Qed.

Lemma console_lines_cons req reply t :
  console_lines (ApiCall req reply :: t) = console_lines t.
Proof. reflexivity. Qed.

Lemma http_gets_cons req reply t : http_gets (ApiCall req reply :: t) = http_gets t.
Proof. reflexivity. Qed.

Lemma file_writes_cons req reply t :
  file_writes (ApiCall req reply :: t) = file_writes t.
Proof. reflexivity. Qed.

(** ** One poll *)

Section PollFacts.

Context {Net Config : Type} (host : Host Net Config).
Variables (accountId : string) (db : Database) (options : DumpOptions).

Lemma pollExport_step polls bookmark n (w : World Net) :
  let req := export_request accountId db options bookmark in
  let reply := fst (fetchResult host req (net w)) in
  let w' := {| net := snd (fetchResult host req (net w)); files := files w |} in
  let next :=
    match reply with
    | Resolved (Success response) =>
        pollExport host polls accountId db options
          (Some (at_bookmark (result response)))
          (counted (messages (result response)) n) w'
    | _ => pending w'
    end in
  pollExport host (S polls) accountId db options bookmark n w =
  match verdict reply with
  | Pending =>
      {| trace := ApiCall req reply :: map ConsoleLog (printed (lines_of reply) n)
                    ++ trace next;
         outcome := outcome next;
         final := final next |}
  | out =>
      {| trace := ApiCall req reply :: map ConsoleLog (printed (lines_of reply) n);
         outcome := out;
         final := w' |}
  end.
Proof.
  cbn zeta. cbn [pollExport]. unfold_monad.
  destruct (fetchResult host _ (net w)) as [[[response|err]|e] n1]; cbn; try reflexivity.
  rewrite report_messages_run. cbn.
  destruct (status (result response)); cbn; by rewrite ?app_nil_r.
Qed.

(** Every run of [pollExport] is a run of the poll loop. *)
Lemma pollExport_polled polls bookmark n (w : World Net) :
  let run := pollExport host polls accountId db options bookmark n w in
  polled accountId db options bookmark n
    (api_calls (trace run)) (console_lines (trace run)) (outcome run).
Proof.
  cbn zeta. revert bookmark n w.
  induction polls as [|polls IH]; intros bookmark n w; [apply polled_bound|].
  rewrite pollExport_step.
  destruct (fetchResult host _ (net w)) as [reply n1] eqn:Hfetch. cbn [fst snd].
  destruct (verdict reply) eqn:Hverdict; cbn [trace outcome];
    rewrite api_calls_cons, console_lines_cons,
      ?api_calls_app, ?console_lines_app, api_calls_console, console_lines_console;
    rewrite <- ?Hverdict; try (apply polled_last; congruence).
  destruct reply as [[response|err]|e]; try discriminate Hverdict.
  cbn in Hverdict. destruct (status (result response)) eqn:Hstatus; try discriminate.
  cbn [lines_of app].
  apply polled_again; [exact Hstatus | apply IH].
Qed.

(** [pollExport] neither downloads nor writes, and leaves the files alone. *)
Lemma pollExport_quiet polls bookmark n (w : World Net) :
  let run := pollExport host polls accountId db options bookmark n w in
  http_gets (trace run) = [] /\ file_writes (trace run) = [] /\
  files (final run) = files w.
Proof.
  cbn zeta. revert bookmark n w.
  induction polls as [|polls IH]; intros bookmark n w; [done|].
  rewrite pollExport_step.
  destruct (fetchResult host _ (net w)) as [reply n1]. cbn [fst snd].
  destruct (verdict reply) eqn:Hverdict; cbn [trace final];
    rewrite http_gets_cons, file_writes_cons,
      ?http_gets_app, ?file_writes_app, http_gets_console, file_writes_console;
    try done.
  destruct reply as [[response|err]|e]; try done.
  apply (IH _ _ {| net := n1; files := files w |}).
Qed.

End PollFacts.

(** ** The poll loop *)

Lemma printed_app l1 l2 n :
  printed (l1 ++ l2) n = printed l1 n ++ printed l2 (counted l1 n).
Proof.
  revert n. induction l1 as [|line rest IH]; intros n; [reflexivity|].
  cbn [app printed counted]. destruct (is_part_line line); cbn; by rewrite IH.
Qed.

Lemma verdict_pending reply :
  verdict reply = Pending ->
  exists response, reply = Resolved (Success response) /\
                   status (result response) = StActive.
Proof.
  destruct reply as [[response|err]|e]; cbn; try discriminate.
  destruct (status (result response)) eqn:Hstatus; try discriminate. eauto.
Qed.

Lemma verdict_returned reply response :
  verdict reply = Returned response ->
  reply = Resolved (Success response) /\
  exists handle, status (result response) = StComplete handle.
Proof.
  destruct reply as [[r|err]|e]; cbn; try discriminate.
  destruct (status (result r)) eqn:Hstatus; try discriminate.
  intros [= <-]. eauto.
Qed.

Section PolledFacts.

Variables (accountId : string) (db : Database) (options : DumpOptions).

Abbreviation polled := (polled accountId db options).
Abbreviation request := (export_request accountId db options).

Lemma polled_first bookmark n calls lines out req reply :
  polled bookmark n calls lines out ->
  calls !! 0 = Some (req, reply) -> req = request bookmark.
Proof. destruct 1; cbn; congruence. Qed.

Lemma polled_next bookmark n calls lines out i req reply req' reply' :
  polled bookmark n calls lines out ->
  calls !! i = Some (req, reply) -> calls !! S i = Some (req', reply') ->
  exists response,
    reply = Resolved (Success response) /\
    status (result response) = StActive /\
    req' = request (Some (at_bookmark (result response))).
Proof.
  intros Hrun. revert i. induction Hrun as [| |b n response calls lines out Hactive Hrun IH];
    intros i Hi Hnext.
  - done.
  - destruct i; done.
  - destruct i as [|i].
    + cbn in Hi, Hnext. injection Hi as <- <-.
      exists response. split_and!; [done..|].
      destruct calls as [|[r0 p0] rest]; [done|].
      cbn in Hnext. injection Hnext as <- <-.
      by eapply polled_first.
    + cbn in Hi, Hnext. by eapply IH.
Qed.

Lemma polled_request bookmark n calls lines out i req reply :
  polled bookmark n calls lines out ->
  calls !! i = Some (req, reply) -> exists b, req = request b.
Proof.
  intros Hrun. revert i. induction Hrun as [| |b n response calls lines out Hactive Hrun IH];
    intros i Hi.
  - done.
  - destruct i; [|done]. cbn in Hi. injection Hi as <- <-. eauto.
  - destruct i as [|i]; cbn in Hi; [|by eapply IH].
    injection Hi as <- <-. eauto.
Qed.

(** A reply that does not make the loop poll again is the last one, and
    decides the outcome. *)
Lemma polled_stop bookmark n calls lines out i req reply :
  polled bookmark n calls lines out ->
  calls !! i = Some (req, reply) -> verdict reply <> Pending ->
  length calls = S i /\ out = verdict reply.
Proof.
  intros Hrun. revert i. induction Hrun as [| |b n response calls lines out Hactive Hrun IH];
    intros i Hi Hstop.
  - done.
  - destruct i; [|done]. cbn in Hi. by injection Hi as <- <-.
  - destruct i as [|i]; cbn in Hi.
    + injection Hi as <- <-. cbn in Hstop. by rewrite Hactive in Hstop.
    + destruct (IH i Hi Hstop) as [Hlen ->]. cbn. by rewrite Hlen.
Qed.

Lemma polled_lines bookmark n calls lines out :
  polled bookmark n calls lines out ->
  lines = printed (received_lines calls) n.
Proof.
  induction 1 as [| |b n response calls lines out Hactive Hrun IH].
  - reflexivity.
  - cbn. by rewrite app_nil_r.
  - cbn [received_lines flat_map snd lines_of]. rewrite printed_app. by rewrite IH.
Qed.

Lemma polled_returned bookmark n calls lines out response :
  polled bookmark n calls lines out -> out = Returned response ->
  exists handle, status (result response) = StComplete handle.
Proof.
  induction 1 as [|b n reply Hstop|]; intros Hout; [done| |auto].
  by apply verdict_returned in Hout as [_ ?].
Qed.

End PolledFacts.

(** ** The whole export *)

Section ExportFacts.

Context {Net Config : Type} (host : Host Net Config).
Variables (on_reset : M Net unit) (polls : nat) (config : Config)
  (name output : string) (tbls : list string) (ns nd : option bool)
  (w : World Net).

Let options := {| noSchema := ns; noData := nd; tables := tbls |}.
Let E := exportRemotely_with host on_reset polls config name output tbls ns nd w.

Ltac export_step :=
  cbn [trace outcome final net files prepend app];
  rewrite ?app_nil_r.

Ltac read_trace :=
  cbn [api_calls console_lines http_gets file_writes];
  rewrite ?api_calls_app, ?console_lines_app, ?http_gets_app, ?file_writes_app;
  cbn [api_calls console_lines http_gets file_writes];
  rewrite ?app_nil_r.

(** The shapes a run of [exportRemotely] can have: it stops before the first
    poll, or it polls and then stops, downloads, and writes. *)
Lemma export_cases :
  (exists e, outcome E = Thrown e /\ trace E = [] /\ files (final E) = files w) \/
  exists acct n1 db n2,
    requireAuth host config (net w) = (Resolved acct, n1) /\
    getDatabaseByNameOrBinding host config acct name n1 = (Resolved db, n2) /\
    let P := pollExport host polls acct db options None 0
               {| net := n2; files := files w |} in
    api_calls (trace E) = api_calls (trace P) /\
    console_lines (trace E) = console_lines (trace P) /\
    match outcome P with
    | Returned response =>
        exists handle,
          status (result response) = StComplete handle /\
          let reply := fst (fetch host (signedUrl handle) (net (final P))) in
          http_gets (trace E) = [(signedUrl handle, reply)] /\
          match reply with
          | Rejected e =>
              outcome E = Thrown e /\ file_writes (trace E) = [] /\
              files (final E) = files w
          | Resolved contents =>
              let data := default "" (fetch_body contents) in
              match writeFault host output data with
              | Some e =>
                  outcome E = Thrown e /\ file_writes (trace E) = [] /\
                  files (final E) = files w
              | None =>
                  outcome E = Returned tt /\
                  file_writes (trace E) = [(output, data)] /\
                  files (final E) = <[output := data]> (files w)
              end
          end
    | Thrown e =>
        outcome E = Thrown e /\ http_gets (trace E) = [] /\
        file_writes (trace E) = [] /\ files (final E) = files w
    | Pending =>
        outcome E = Pending /\ http_gets (trace E) = [] /\
        file_writes (trace E) = [] /\ files (final E) = files w
    end.
Proof.
  subst E. unfold exportRemotely_with.
  unfold mbind, M_bind, bind, await, logger_log, emit.
  destruct (requireAuth host config (net w)) as [[acct|e] n1] eqn:Hauth; export_step;
    [|left; eauto].
  destruct (getDatabaseByNameOrBinding host config acct name n1) as [[db|e] n2] eqn:Hdb;
    export_step; [|left; eauto].
  right. exists acct, n1, db, n2. split; [done|split; [done|]]. cbn zeta. fold options.
  set (P := pollExport host polls acct db options None 0 {| net := n2; files := files w |}).
  destruct (pollExport_quiet host acct db options polls None 0%N
              {| net := n2; files := files w |}) as (Hgets & Hwrites & Hfiles).
  fold P in Hgets, Hwrites, Hfiles. cbn [files] in Hfiles.
  pose proof (pollExport_polled host acct db options polls None 0%N
                {| net := n2; files := files w |}) as Hpolled.
  cbn zeta in Hpolled. fold P in Hpolled.
  destruct (outcome P) as [response|e|] eqn:Hout; export_step.
  - destruct (polled_returned _ _ _ _ _ _ _ _ response Hpolled eq_refl) as [handle Hstatus].
    rewrite Hstatus. export_step.
    unfold fs_writeFile.
    destruct (fetch host (signedUrl handle) (net (final P))) as [[contents|e] n3] eqn:Hfetch;
      export_step;
      [destruct (writeFault host output (default "" (fetch_body contents))) as [e|] eqn:Hfault;
       export_step|];
      read_trace; (split; [done|split; [done|]]);
      exists handle; (split; [done|]); rewrite Hfetch; cbn [fst];
      rewrite Hgets, ?Hwrites, ?Hfault, ?Hfiles; done.
  - read_trace. by rewrite Hgets, Hwrites.
  - read_trace. by rewrite Hgets, Hwrites.
Qed.

(** The statement under the guard never runs: any other one in its place
    gives the same run. *)
Lemma export_guard_dead (other : M Net unit) :
  exportRemotely_with host other polls config name output tbls ns nd w = E.
Proof.
  subst E. unfold exportRemotely_with.
  unfold mbind, M_bind, bind, await, logger_log, emit.
  destruct (requireAuth host config (net w)) as [[acct|e] n1]; export_step; [|done].
  destruct (getDatabaseByNameOrBinding host config acct name n1) as [[db|e] n2];
    export_step; [|done].
  set (P := pollExport host polls acct db _ None 0 {| net := n2; files := files w |}).
  pose proof (pollExport_polled host acct db options polls None 0%N
                {| net := n2; files := files w |}) as Hpolled.
  cbn zeta in Hpolled. change (pollExport _ _ _ _ _ _ _ _) with P in Hpolled.
  destruct (outcome P) as [response|e|] eqn:Hout; [|done..].
  destruct (polled_returned _ _ _ _ _ _ _ _ response Hpolled eq_refl) as [handle Hstatus].
  by rewrite Hstatus.
Qed.

End ExportFacts.

(** ** Counting and joining *)

Lemma js_incr_exact n : (n < MAX_EXACT)%N -> js_incr n = N.succ n.
Proof. unfold js_incr. intros Hn. by apply N.ltb_lt in Hn as ->. Qed.

(** From 0 the counter never leaves the range in which [js_incr] is what
    [++] does. *)
Lemma js_incr_range n : (n <= MAX_EXACT)%N -> (js_incr n <= MAX_EXACT)%N.
Proof. unfold js_incr. destruct (N.ltb_spec n MAX_EXACT); lia. Qed.

Lemma counted_range lines n : (n <= MAX_EXACT)%N -> (counted lines n <= MAX_EXACT)%N.
Proof.
  revert n. induction lines as [|line rest IH]; intros n Hn; [done|].
  cbn [counted]. destruct (is_part_line line); auto using js_incr_range.
Qed.

(** Different numbers are printed differently. *)
Lemma js_number_to_string_inj a b :
  js_number_to_string a = js_number_to_string b -> a = b.
Proof.
  unfold js_number_to_string. intros Hprinted.
  assert (Hnonnil : forall n, N.to_uint n <> Decimal.Nil).
  { intros [|p]; [done | apply Unsigned.to_uint_nonnil]. }
  apply DecimalN.Unsigned.to_uint_inj.
  pose proof (NilZero.usu _ (Hnonnil a)) as Ha.
  pose proof (NilZero.usu _ (Hnonnil b)) as Hb.
  rewrite Hprinted in Ha. congruence.
Qed.

(** [startsWith] holds of the strings that begin with the given one. *)
Lemma startsWith_spec line p :
  startsWith line p = true <-> exists rest, line = p +:+ rest.
Proof.
  unfold startsWith. revert line. induction p as [|c p IH]; intros line.
  - split; [exists line; reflexivity | by destruct line].
  - destruct line as [|d line]; cbn.
    + split; [done | by intros [rest ?]].
    + destruct (ascii_dec c d) as [->|Hne].
      * rewrite IH. split; intros [rest Hrest]; exists rest.
        -- by rewrite Hrest.
        -- by injection Hrest.
      * split; [done|]. intros [rest Hrest]. injection Hrest as <- _. done.
Qed.

Lemma printed_length lines n : length (printed lines n) = length lines.
Proof.
  revert n. induction lines as [|line rest IH]; intros n; [reflexivity|].
  cbn [printed]. destruct (is_part_line line); cbn [length]; by rewrite IH.
Qed.

(** A line that is not a part report is printed as it is, after the swirl. *)
Lemma printed_other lines n j line :
  lines !! j = Some line -> is_part_line line = false ->
  printed lines n !! j = Some (swirl +:+ line).
Proof.
  revert n j. induction lines as [|head rest IH]; intros n j Hj Hline; [done|].
  destruct j as [|j]; cbn in Hj.
  - injection Hj as ->. cbn [printed]. by rewrite Hline.
  - cbn [printed]. destruct (is_part_line head); cbn [lookup list_lookup]; by apply IH.
Qed.

(** A part report is printed with the number of part reports so far, as long
    as the counter is exact. *)
Lemma printed_part lines n j line :
  lines !! j = Some line -> is_part_line line = true ->
  (n + count_parts (take (S j) lines) <= MAX_EXACT)%N ->
  printed lines n !! j =
  Some (swirl +:+ "Uploaded part " +:+
        js_number_to_string (n + count_parts (take (S j) lines))).
Proof.
  revert n j. induction lines as [|head rest IH]; intros n j Hj Hline Hexact; [done|].
  destruct j as [|j]; cbn in Hj.
  - injection Hj as ->. cbn [take count_parts printed] in *. rewrite Hline in *.
    cbn [lookup list_lookup]. rewrite js_incr_exact by lia.
    by replace (n + N.succ (count_parts (take 0 rest)))%N with (N.succ n)
      by (rewrite take_0; cbn [count_parts]; lia).
  - cbn [take count_parts printed] in *.
    destruct (is_part_line head); cbn [lookup list_lookup].
    + rewrite js_incr_exact by lia.
      rewrite IH by (try done; lia).
      by replace (N.succ n + count_parts (take (S j) rest))%N
        with (n + N.succ (count_parts (take (S j) rest)))%N by lia.
    + by apply IH.
Qed.

Lemma append_cons c (s t : string) : String c s +:+ t = String c (s +:+ t).
Proof. reflexivity. Qed.

Lemma append_empty_r (s : string) : s +:+ "" = s.
Proof. induction s as [|c s IH]; [reflexivity|]. by rewrite append_cons, IH. Qed.

Lemma append_assoc (s t u : string) : (s +:+ t) +:+ u = s +:+ t +:+ u.
Proof. induction s as [|c s IH]; [reflexivity|]. by rewrite !append_cons, IH. Qed.

Lemma includes_refl text : includes text text.
Proof. exists "", "". by rewrite append_empty_r. Qed.

Lemma includes_append_l text piece before :
  includes text piece -> includes (before +:+ text) piece.
Proof.
  intros (b & a & ->). exists (before +:+ b), a. by rewrite append_assoc.
Qed.

Lemma includes_append_r text piece after :
  includes text piece -> includes (text +:+ after) piece.
Proof.
  intros (b & a & ->). exists b, (a +:+ after). by rewrite !append_assoc.
Qed.

(** Joining keeps every element. *)
Lemma join_includes sep xs x : x ∈ xs -> includes (join sep xs) x.
Proof.
  unfold join. induction xs as [|head rest IH]; intros Hx; [by apply elem_of_nil in Hx|].
  apply elem_of_cons in Hx as [->|Hx].
  - destruct rest; cbn; [apply includes_refl|].
    apply includes_append_r, includes_refl.
  - destruct rest as [|second rest]; [by apply elem_of_nil in Hx|].
    change (includes (head +:+ sep +:+ String.concat sep (second :: rest)) x).
    by apply includes_append_l, includes_append_l, IH.
Qed.

Section MorePolls.

Context {Net Config : Type} (host : Host Net Config).

(** The bound on the number of polls only cuts runs short: a run that
    returned or threw within the bound is the same under any larger one. *)
Lemma pollExport_more_polls polls extra accountId db options bookmark n (w : World Net) :
  outcome (pollExport host polls accountId db options bookmark n w) <> Pending ->
  pollExport host (polls + extra) accountId db options bookmark n w =
  pollExport host polls accountId db options bookmark n w.
Proof.
  revert bookmark n w. induction polls as [|polls IH]; intros bookmark n w; [done|].
  change (S polls + extra) with (S (polls + extra)). rewrite !pollExport_step.
  destruct (fetchResult host _ (net w)) as [reply n1]. cbn [fst snd].
  destruct (verdict reply) eqn:Hverdict; [done..|].
  apply verdict_pending in Hverdict as (response & -> & _).
  cbn [outcome]. intros Hsettled. by rewrite IH.
Qed.

Lemma exportRemotely_more_polls polls extra config name output tbls ns nd (w : World Net) :
  outcome (exportRemotely host polls config name output tbls ns nd w) <> Pending ->
  exportRemotely host (polls + extra) config name output tbls ns nd w =
  exportRemotely host polls config name output tbls ns nd w.
Proof.
  unfold exportRemotely, exportRemotely_with.
  unfold mbind, M_bind, bind, await, logger_log, emit.
  destruct (requireAuth host config (net w)) as [[acct|e] n1];
    cbn [trace outcome final net files prepend]; [|done].
  destruct (getDatabaseByNameOrBinding host config acct name n1) as [[db|e] n2];
    cbn [trace outcome final net files prepend]; [|done].
  set (P := pollExport host polls acct db _ None 0 {| net := n2; files := files w |}).
  intros Hsettled.
  rewrite (pollExport_more_polls polls extra); [done|].
  fold P. by destruct (outcome P).
Qed.

End MorePolls.

(** * The properties of the specification *)

Section Claims.

Context {Net Config : Type} (host : Host Net Config).
Variables (polls : nat) (config : Config) (name output : string)
  (tbls : list string) (ns nd : option bool) (w : World Net).

Let options := {| noSchema := ns; noData := nd; tables := tbls |}.
Let E := exportRemotely host polls config name output tbls ns nd w.

(** The requests, replies and printed lines of an export are those of one
    run of the poll loop, started without a bookmark and with the counter
    at zero; when the loop throws, so does the export, without a download. *)
Lemma export_polled :
  exists acct db out,
    polled acct db options None 0
      (api_calls (trace E)) (console_lines (trace E)) out /\
    forall e, out = Thrown e ->
      outcome E = Thrown e /\ http_gets (trace E) = [] /\ file_writes (trace E) = [].
Proof.
  destruct (export_cases host
              (throw (JsError "Error: D1 reset before export completed!"))
              polls config name output tbls ns nd w)
    as [(e & _ & Htrace & _)|(acct & n1 & db & n2 & _ & _ & Hcalls & Hlines & Hout)].
  - exists "", {| uuid := "" |}, Pending. subst E. unfold exportRemotely.
    rewrite Htrace. split; [apply polled_bound | done].
  - cbn zeta in *. fold options in Hcalls, Hlines, Hout.
    set (P := pollExport host polls acct db options None 0
                {| net := n2; files := files w |}) in *.
    exists acct, db, (outcome P). subst E. unfold exportRemotely.
    rewrite Hcalls, Hlines. split; [apply pollExport_polled|].
    intros e He. rewrite He in Hout. by destruct Hout as (? & ? & ? & _).
Qed.

(** C1, bookmark threading: the first status request of an export has no
    [currentBookmark]; every later request carries the [at_bookmark] of the
    reply to the request just before it, and that reply was [active]. *)
Theorem bookmark_threading :
  let calls := api_calls (trace E) in
  (forall req reply,
     calls !! 0 = Some (req, reply) -> currentBookmark (body req) = None) /\
  (forall i req reply req' reply',
     calls !! i = Some (req, reply) -> calls !! S i = Some (req', reply') ->
     exists response,
       reply = Resolved (Success response) /\
       status (result response) = StActive /\
       currentBookmark (body req') = Some (at_bookmark (result response))).
Proof.
  cbn zeta. destruct export_polled as (acct & db & out & Hpolled & _). split.
  - intros req reply Hfirst. by rewrite (polled_first _ _ _ _ _ _ _ _ _ _ Hpolled Hfirst).
  - intros i req reply req' reply' Hi Hnext.
    destruct (polled_next _ _ _ _ _ _ _ _ _ _ _ _ _ Hpolled Hi Hnext)
      as (response & -> & Hactive & ->).
    by exists response.
Qed.

(** C2, terminal once: a reply with status [error] or [complete] is the
    reply to the last status request of the export, whatever the bound on
    the number of polls. *)
Theorem terminal_once i req response :
  api_calls (trace E) !! i = Some (req, Resolved (Success response)) ->
  status (result response) = StError \/
    (exists handle, status (result response) = StComplete handle) ->
  length (api_calls (trace E)) = S i.
Proof.
  intros Hi Hterminal. destruct export_polled as (acct & db & out & Hpolled & _).
  eapply polled_stop; [exact Hpolled | exact Hi |].
  cbn. by destruct Hterminal as [-> | [handle ->]].
Qed.

(** C3, monotonic renumbering: the [k]-th line of an export that starts with
    [Uploaded part], counted over the lines of all replies in the order they
    arrived, is printed as [Uploaded part k], whatever number the server put
    in it.  [k] is at most 2^53, the range in which the counter is exact. *)
Theorem monotonic_renumbering j line :
  let lines := received_lines (api_calls (trace E)) in
  let k := count_parts (take (S j) lines) in
  lines !! j = Some line ->
  is_part_line line = true ->
  (k <= MAX_EXACT)%N ->
  console_lines (trace E) !! j =
  Some (swirl +:+ "Uploaded part " +:+ js_number_to_string k).
Proof.
  cbn zeta. intros Hj Hpart Hexact.
  destruct export_polled as (acct & db & out & Hpolled & _).
  rewrite (polled_lines _ _ _ _ _ _ _ _ Hpolled).
  by rewrite (printed_part _ 0%N j line Hj Hpart).
Qed.

(** C4, envelope failure: when a reply has [success: false], the export
    throws an error whose message is the [error] string of that reply; the
    request it answers is the last one, and nothing is downloaded or
    written. *)
Theorem envelope_failure i req err :
  api_calls (trace E) !! i = Some (req, Resolved (Failure err)) ->
  outcome E = Thrown (JsError err) /\
  length (api_calls (trace E)) = S i /\
  http_gets (trace E) = [] /\ file_writes (trace E) = [].
Proof.
  intros Hi. destruct export_polled as (acct & db & out & Hpolled & Hthrown).
  destruct (polled_stop _ _ _ _ _ _ _ _ _ _ _ Hpolled Hi) as [Hlast Hout]; [done|].
  destruct (Hthrown _ Hout) as (? & ? & ?). done.
Qed.

(** C5, error surfacing: when a reply has status [error], the export throws
    an error whose message is the [errors] of that reply joined by newlines,
    so the message includes every one of them. *)
Theorem error_surfacing i req response :
  api_calls (trace E) !! i = Some (req, Resolved (Success response)) ->
  status (result response) = StError ->
  exists msg,
    outcome E = Thrown (JsError msg) /\
    msg = join newline (errors (result response)) /\
    forall e, e ∈ errors (result response) -> includes msg e.
Proof.
  intros Hi Herror. destruct export_polled as (acct & db & out & Hpolled & Hthrown).
  destruct (polled_stop _ _ _ _ _ _ _ _ _ _ _ Hpolled Hi) as [_ Hout];
    [by cbn; rewrite Herror|].
  cbn in Hout. rewrite Herror in Hout.
  destruct (Hthrown _ Hout) as (Hfail & _).
  eexists. split; [exact Hfail|]. split; [reflexivity|].
  intros e He. by apply join_includes.
Qed.

(** C6, completion and retrieval: when a reply has status [complete] with a
    handle, [pollExport] returns that reply to [exportRemotely], which makes
    one GET, of the handle's [signedUrl]; when the GET resolves and the
    write is not refused, the export returns, and the file at the output
    path holds the body that was fetched, whatever it held before. *)
Theorem completion_and_retrieval i req response handle :
  api_calls (trace E) !! i = Some (req, Resolved (Success response)) ->
  status (result response) = StComplete handle ->
  (exists acct n1 db n2,
     requireAuth host config (net w) = (Resolved acct, n1) /\
     getDatabaseByNameOrBinding host config acct name n1 = (Resolved db, n2) /\
     outcome (pollExport host polls acct db options None 0
                {| net := n2; files := files w |}) = Returned response) /\
  exists reply,
    http_gets (trace E) = [(signedUrl handle, reply)] /\
    forall contents,
      reply = Resolved contents ->
      let data := default "" (fetch_body contents) in
      writeFault host output data = None ->
      outcome E = Returned tt /\
      file_writes (trace E) = [(output, data)] /\
      files (final E) = <[output := data]> (files w).
Proof.
  intros Hi Hcomplete.
  destruct (export_cases host
              (throw (JsError "Error: D1 reset before export completed!"))
              polls config name output tbls ns nd w)
    as [(e & _ & Htrace & _)|(acct & n1 & db & n2 & Hauth & Hdb & Hcalls & Hlines & Hout)].
  { subst E. unfold exportRemotely in Hi. by rewrite Htrace in Hi. }
  cbn zeta in *. fold options in Hcalls, Hlines, Hout.
  set (P := pollExport host polls acct db options None 0
              {| net := n2; files := files w |}) in *.
  change (exportRemotely_with _ _ _ _ _ _ _ _ _ _) with E in *.
  rewrite Hcalls in Hi.
  destruct (polled_stop _ _ _ _ _ _ _ _ _ _ _
              (pollExport_polled host acct db options polls None 0%N _) Hi)
    as [_ Hreturned]; [by cbn; rewrite Hcomplete|].
  cbn in Hreturned. rewrite Hcomplete in Hreturned. fold P in Hreturned.
  rewrite Hreturned in Hout. destruct Hout as (handle' & Hstatus & Hgets & Hrest).
  rewrite Hcomplete in Hstatus. injection Hstatus as <-.
  split; [by exists acct, n1, db, n2|].
  eexists. split; [exact Hgets|].
  intros contents Hreply Hfault. rewrite Hreply in Hrest.
  by rewrite Hfault in Hrest.
Qed.

(** C7, request invariance: every status request of an export has the limit
    790000 and the [dumpOptions] the caller gave, and any two of them agree
    on everything but the bookmark. *)
Theorem request_invariance :
  let calls := api_calls (trace E) in
  (forall i req reply,
     calls !! i = Some (req, reply) ->
     limit (dumpOptions (body req)) = 790000%N /\
     spread (dumpOptions (body req)) =
       {| noSchema := ns; noData := nd; tables := tbls |}) /\
  (forall i j req reply req' reply',
     calls !! i = Some (req, reply) -> calls !! j = Some (req', reply') ->
     url req' = url req /\ method req' = method req /\
     headers req' = headers req /\
     outputFormat (body req') = outputFormat (body req) /\
     dumpOptions (body req') = dumpOptions (body req)).
Proof.
  cbn zeta. destruct export_polled as (acct & db & out & Hpolled & _). split.
  - intros i req reply Hi.
    by destruct (polled_request _ _ _ _ _ _ _ _ _ _ _ Hpolled Hi) as [b ->].
  - intros i j req reply req' reply' Hi Hj.
    destruct (polled_request _ _ _ _ _ _ _ _ _ _ _ Hpolled Hi) as [b ->].
    by destruct (polled_request _ _ _ _ _ _ _ _ _ _ _ Hpolled Hj) as [b' ->].
Qed.

(** C8, verbatim emission: a line that does not start with [Uploaded part]
    is printed unchanged after the swirl that starts every progress line,
    at the place it has among the lines received. *)
Theorem verbatim_emission j line :
  received_lines (api_calls (trace E)) !! j = Some line ->
  is_part_line line = false ->
  console_lines (trace E) !! j = Some (swirl +:+ line).
Proof.
  intros Hj Hother. destruct export_polled as (acct & db & out & Hpolled & _).
  rewrite (polled_lines _ _ _ _ _ _ _ _ Hpolled).
  by apply printed_other.
Qed.

(** C10, null body: when the download resolves with a [null] body and the
    write is not refused, the export returns and the file at the output path
    is empty. *)
Theorem null_body_writes_empty_file target :
  (target, Resolved {| fetch_body := None |}) ∈ http_gets (trace E) ->
  writeFault host output "" = None ->
  outcome E = Returned tt /\
  file_writes (trace E) = [(output, "")] /\
  files (final E) = <[output := ""]> (files w).
Proof.
  intros Hget Hfault.
  destruct (export_cases host
              (throw (JsError "Error: D1 reset before export completed!"))
              polls config name output tbls ns nd w)
    as [(e & _ & Htrace & _)|(acct & n1 & db & n2 & _ & _ & _ & _ & Hout)].
  { subst E. unfold exportRemotely in Hget. rewrite Htrace in Hget.
    by apply elem_of_nil in Hget. }
  cbn zeta in *. change (exportRemotely_with _ _ _ _ _ _ _ _ _ _) with E in *.
  destruct (outcome (pollExport _ _ _ _ _ _ _ _)) as [response|e|].
  - destruct Hout as (handle & _ & Hgets & Hrest).
    rewrite Hgets in Hget. apply list_elem_of_singleton in Hget.
    injection Hget as _ Hreply. rewrite <- Hreply in Hrest. cbn in Hrest.
    by rewrite Hfault in Hrest.
  - destruct Hout as (_ & Hgets & _). rewrite Hgets in Hget. by apply elem_of_nil in Hget.
  - destruct Hout as (_ & Hgets & _). rewrite Hgets in Hget. by apply elem_of_nil in Hget.
Qed.

End Claims.

(** C9, only complete responses are returned: a response that [pollExport]
    returns has status [complete], and the statement [exportRemotely] guards
    with [result.status !== "complete"] never runs: with any other statement
    in its place, every run of [exportRemotely] is the same. *)
Theorem poll_returns_complete_only {Net Config : Type} (host : Host Net Config) :
  (forall polls accountId db options bookmark n (w : World Net) response,
     outcome (pollExport host polls accountId db options bookmark n w)
       = Returned response ->
     exists handle, status (result response) = StComplete handle) /\
  (forall other polls config name output tbls ns nd (w : World Net),
     exportRemotely_with host other polls config name output tbls ns nd w =
     exportRemotely host polls config name output tbls ns nd w).
Proof.
  split.
  - intros polls accountId db options bookmark n w response Hout.
    eapply polled_returned; [apply (pollExport_polled host) | exact Hout].
  - intros. apply export_guard_dead.
Qed.

(** * Scripted exports *)

(** The export of [script_parts]: three polls, four lines, one download. *)
Example export_parts_console :
  console_lines (trace (scripted_export sql_body script_parts)) =
  [swirl +:+ "Uploaded part 1"; swirl +:+ "Fetching schema";
   swirl +:+ "Uploaded part 2"; swirl +:+ "Uploaded part 3"].
Proof. reflexivity. Qed.

Example export_parts_bookmarks :
  map (fun call => currentBookmark (body (fst call)))
    (api_calls (trace (scripted_export sql_body script_parts))) =
  [None; Some "b1"; Some "b2"].
Proof. reflexivity. Qed.

Example export_parts_file :
  outcome (scripted_export sql_body script_parts) = Returned tt /\
  files (final (scripted_export sql_body script_parts)) !! "out.sql" =
    Some "CREATE TABLE users (id INTEGER);".
Proof. split; reflexivity. Qed.

(** At 2^53 the counter stays where it is. *)
Example js_incr_at_max : js_incr MAX_EXACT = MAX_EXACT.
Proof. reflexivity. Qed.

Lemma bookmark_threading_witness :
  let calls := api_calls (trace (scripted_export sql_body script_parts)) in
  (exists req reply, calls !! 0 = Some (req, reply) /\
                     currentBookmark (body req) = None) /\
  (exists req reply req' reply',
     calls !! 1 = Some (req, reply) /\ calls !! 2 = Some (req', reply') /\
     reply = reply_active "b2" ["Uploaded part 3"] /\
     currentBookmark (body req') = Some "b2").
Proof.
  pose proof (bookmark_threading (scripted sql_body) 10 tt "mydb" "out.sql"
                ["users"] (Some true) None (world0 script_parts)) as [Hfirst Hnext].
  split.
  - eexists _, _. split; [reflexivity|]. eapply Hfirst. reflexivity.
  - eexists _, _, _, _. split; [reflexivity|]. split; [reflexivity|].
    split; [reflexivity|].
    destruct (Hnext 1 _ _ _ _ eq_refl eq_refl) as (response & Hreply & _ & Hbookmark).
    injection Hreply as <-. exact Hbookmark.
Defined.

Lemma terminal_once_witness :
  let calls := api_calls (trace (scripted_export sql_body script_error)) in
  (exists req response,
     calls !! 1 = Some (req, Resolved (Success response)) /\
     status (result response) = StError) /\
  length calls = 2.
Proof.
  split.
  - eexists _, _. split; reflexivity.
  - eapply (terminal_once (scripted sql_body) 10 tt "mydb" "out.sql"
              ["users"] (Some true) None (world0 script_error) 1).
    + reflexivity.
    + left. reflexivity.
Defined.

Lemma monotonic_renumbering_witness :
  let run := scripted_export sql_body script_parts in
  received_lines (api_calls (trace run)) =
    ["Uploaded part 7"; "Fetching schema"; "Uploaded part 3"; "Uploaded part 9"] /\
  console_lines (trace run) !! 0 = Some (swirl +:+ "Uploaded part 1") /\
  console_lines (trace run) !! 2 = Some (swirl +:+ "Uploaded part 2") /\
  console_lines (trace run) !! 3 = Some (swirl +:+ "Uploaded part 3").
Proof.
  split; [reflexivity|].
  split; [|split].
  - apply (monotonic_renumbering (scripted sql_body) 10 tt "mydb" "out.sql"
             ["users"] (Some true) None (world0 script_parts) 0 "Uploaded part 7");
      [reflexivity | reflexivity | vm_compute; discriminate].
  - apply (monotonic_renumbering (scripted sql_body) 10 tt "mydb" "out.sql"
             ["users"] (Some true) None (world0 script_parts) 2 "Uploaded part 3");
      [reflexivity | reflexivity | vm_compute; discriminate].
  - apply (monotonic_renumbering (scripted sql_body) 10 tt "mydb" "out.sql"
             ["users"] (Some true) None (world0 script_parts) 3 "Uploaded part 9");
      [reflexivity | reflexivity | vm_compute; discriminate].
Defined.

Lemma envelope_failure_witness :
  let run := scripted_export sql_body script_failure in
  (exists req, api_calls (trace run) !! 0 = Some (req, Resolved (Failure "bad request"))) /\
  outcome run = Thrown (JsError "bad request") /\
  length (api_calls (trace run)) = 1 /\
  http_gets (trace run) = [] /\ file_writes (trace run) = [].
Proof.
  split.
  - eexists. reflexivity.
  - eapply (envelope_failure (scripted sql_body) 10 tt "mydb" "out.sql"
              ["users"] (Some true) None (world0 script_failure) 0).
    reflexivity.
Defined.

Lemma error_surfacing_witness :
  let run := scripted_export sql_body script_error in
  exists msg,
    outcome run = Thrown (JsError msg) /\
    includes msg "disk full" /\ includes msg "quota exceeded".
Proof.
  destruct (error_surfacing (scripted sql_body) 10 tt "mydb" "out.sql"
              ["users"] (Some true) None (world0 script_error) 1 _ _
              eq_refl eq_refl) as (msg & Hthrown & _ & Hincludes).
  exists msg. split; [exact Hthrown|].
  split; apply Hincludes; cbn [errors result]; repeat constructor.
Defined.

Lemma completion_and_retrieval_witness :
  let run := scripted_export sql_body script_parts in
  (exists req response,
     api_calls (trace run) !! 2 = Some (req, Resolved (Success response)) /\
     status (result response) = StComplete dump_sql) /\
  http_gets (trace run) = [("https://x/y", sql_body)] /\
  outcome run = Returned tt /\
  file_writes (trace run) = [("out.sql", "CREATE TABLE users (id INTEGER);")] /\
  files (final run) =
    <["out.sql" := "CREATE TABLE users (id INTEGER);"]> (<["out.sql" := "stale"]> ∅).
Proof.
  split.
  - eexists _, _. split; reflexivity.
  - destruct (completion_and_retrieval (scripted sql_body) 10 tt "mydb" "out.sql"
                ["users"] (Some true) None (world0 script_parts) 2 _ _ dump_sql
                eq_refl eq_refl) as (_ & reply & Hgets & Hwrite).
    split; [reflexivity|].
    apply (Hwrite {| fetch_body := Some "CREATE TABLE users (id INTEGER);" |}).
    + cbn in Hgets. injection Hgets as Hreply. symmetry. exact Hreply.
    + reflexivity.
Defined.

Lemma request_invariance_witness :
  let calls := api_calls (trace (scripted_export sql_body script_parts)) in
  exists req reply req' reply',
    calls !! 0 = Some (req, reply) /\ calls !! 2 = Some (req', reply') /\
    limit (dumpOptions (body req')) = 790000%N /\
    spread (dumpOptions (body req')) =
      {| noSchema := Some true; noData := None; tables := ["users"] |} /\
    dumpOptions (body req') = dumpOptions (body req).
Proof.
  pose proof (request_invariance (scripted sql_body) 10 tt "mydb" "out.sql"
                ["users"] (Some true) None (world0 script_parts)) as [Hsame Hpair].
  eexists _, _, _, _. split; [reflexivity|]. split; [reflexivity|].
  destruct (Hsame 2 _ _ eq_refl) as [Hlimit Hspread].
  destruct (Hpair 0 2 _ _ _ _ eq_refl eq_refl) as (_ & _ & _ & _ & Hoptions).
  split; [exact Hlimit|]. split; [exact Hspread | exact Hoptions].
Defined.

Lemma verbatim_emission_witness :
  let run := scripted_export sql_body script_parts in
  received_lines (api_calls (trace run)) !! 1 = Some "Fetching schema" /\
  console_lines (trace run) !! 1 = Some (swirl +:+ "Fetching schema").
Proof.
  split; [reflexivity|].
  apply (verbatim_emission (scripted sql_body) 10 tt "mydb" "out.sql"
           ["users"] (Some true) None (world0 script_parts) 1 "Fetching schema");
    reflexivity.
Defined.

Lemma poll_returns_complete_only_witness :
  exists response handle,
    outcome (pollExport (Config := unit) (scripted sql_body) 10 "acct"
               {| uuid := "db-uuid" |}
               {| noSchema := Some true; noData := None; tables := ["users"] |}
               None 0 (world0 script_parts)) = Returned response /\
    status (result response) = StComplete handle.
Proof.
  eexists.
  destruct (proj1 (poll_returns_complete_only (scripted sql_body)) 10 "acct"
              {| uuid := "db-uuid" |}
              {| noSchema := Some true; noData := None; tables := ["users"] |}
              None 0%N (world0 script_parts) _ eq_refl) as [handle Hstatus].
  exists handle. split; [reflexivity | exact Hstatus].
Defined.

Lemma null_body_writes_empty_file_witness :
  let run := scripted_export null_body script_parts in
  http_gets (trace run) = [("https://x/y", null_body)] /\
  outcome run = Returned tt /\
  file_writes (trace run) = [("out.sql", "")] /\
  files (final run) = <["out.sql" := ""]> (<["out.sql" := "stale"]> ∅).
Proof.
  split; [reflexivity|].
  apply (null_body_writes_empty_file (scripted null_body) 10 tt "mydb" "out.sql"
           ["users"] (Some true) None (world0 script_parts) "https://x/y").
  - vm_compute. left.
  - reflexivity.
Defined.

(** * More of the export command *)

(** ** [Handler] *)

Section HandlerFacts.

Context {Net Config : Type} (cli : CliHost Net Config).
Variables (polls : nat) (args : Args.t) (w : World Net).

Let H := Handler cli polls args w.

(** Before anything else [Handler] prints the banner and reads the
    configuration; either may throw. *)
Lemma Handler_cases :
  (exists e, outcome H = Thrown e /\ trace H = [] /\ files (final H) = files w /\
             (fst (printWranglerBanner cli (net w)) = Rejected e \/
              readConfig cli (Args.config args) args = Rejected e)) \/
  exists config,
    readConfig cli (Args.config args) args = Resolved config /\
    fst (printWranglerBanner cli (net w)) = Resolved tt /\
    let w' := {| net := snd (printWranglerBanner cli (net w)); files := files w |} in
    if flag_set (Args.local args) then
      H = {| trace := [];
             outcome := Thrown (JsError
               "Local imports/exports will be coming in a future version of Wrangler.");
             final := w' |}
    else if flag_set (Args.remote args) then
      let E := exportRemotely (export_host cli) polls config (Args.name args)
                 (Args.output args) (tables_of (Args.table args))
                 (Args.noSchema args) (Args.noData args) w' in
      trace H = trace E /\ outcome H = outcome E /\ final H = final E
    else
      H = {| trace := [];
             outcome := Thrown (JsError "You must specify either --local or --remote");
             final := w' |}.
Proof.
  subst H. unfold Handler, mbind, Handler_bind, bind, await, attempt.
  destruct (printWranglerBanner cli (net w)) as [[[]|e] n];
    cbn [trace outcome final net files prepend app fst snd]; [|left; eauto 10].
  destruct (readConfig cli (Args.config args) args) as [config|e];
    cbn [trace outcome final net files prepend app]; [|left; eauto 10].
  right. exists config. split; [done|]. split; [done|]. cbn zeta.
  destruct (flag_set (Args.local args)); [done|].
  destruct (flag_set (Args.remote args)); cbn [negb]; [|done].
  destruct (exportRemotely _ _ _ _ _ _ _ _ _) as [t [[]|e|] w'];
    cbn [trace outcome final prepend mret Handler_ret ret]; by rewrite ?app_nil_r.
Qed.

(** X1, [--local] is refused: with [--local], whatever else is given and
    whatever the host does, [Handler] throws without a request, a download or
    a write; when the banner and the configuration went through, the error
    is the one about local exports. *)
Theorem Handler_local_refused :
  Args.local args = Some true ->
  trace H = [] /\ files (final H) = files w /\
  exists e, outcome H = Thrown e /\
    (forall config,
       fst (printWranglerBanner cli (net w)) = Resolved tt ->
       readConfig cli (Args.config args) args = Resolved config ->
       e = JsError "Local imports/exports will be coming in a future version of Wrangler.").
Proof.
  intros Hlocal.
  destruct Handler_cases as [(e & Hout & Htrace & Hfiles & Hwhy)|(config & Hconfig & Hbanner & Hrun)].
  - split; [done|]. split; [done|]. exists e. split; [done|].
    intros config Hbanner Hconfig. destruct Hwhy; congruence.
  - cbn zeta in Hrun. rewrite Hlocal in Hrun. cbn in Hrun. rewrite Hrun. cbn.
    split; [done|]. split; [done|]. eauto.
Qed.

(** X2, a target is required: without [--local] and without [--remote]
    (or with [--remote=false]), [Handler] throws without a request, a
    download or a write; when the banner and the configuration went through,
    the error asks for one of the two flags. *)
Theorem Handler_target_required :
  Args.local args <> Some true -> Args.remote args <> Some true ->
  trace H = [] /\ files (final H) = files w /\
  exists e, outcome H = Thrown e /\
    (forall config,
       fst (printWranglerBanner cli (net w)) = Resolved tt ->
       readConfig cli (Args.config args) args = Resolved config ->
       e = JsError "You must specify either --local or --remote").
Proof.
  intros Hlocal Hremote.
  assert (flag_set (Args.local args) = false) as Hl
    by (destruct (Args.local args) as [[]|]; done).
  assert (flag_set (Args.remote args) = false) as Hr
    by (destruct (Args.remote args) as [[]|]; done).
  destruct Handler_cases as [(e & Hout & Htrace & Hfiles & Hwhy)|(config & Hconfig & Hbanner & Hrun)].
  - split; [done|]. split; [done|]. exists e. split; [done|].
    intros config Hbanner Hconfig. destruct Hwhy; congruence.
  - cbn zeta in Hrun. rewrite Hl, Hr in Hrun. rewrite Hrun. cbn.
    split; [done|]. split; [done|]. eauto.
Qed.

(** X3, the tables of a request: every status request [Handler] makes
    carries the [--no-schema] and [--no-data] flags as given and, as
    [tables], no table when [--table] is absent or the empty string, the one
    table of a single [--table], and the array of a repeated one. *)
Theorem Handler_request_tables i req reply :
  api_calls (trace H) !! i = Some (req, reply) ->
  let sent := spread (dumpOptions (body req)) in
  noSchema sent = Args.noSchema args /\
  noData sent = Args.noData args /\
  (Args.table args = None \/ Args.table args = Some (OneTable "") ->
     tables sent = []) /\
  (forall t, Args.table args = Some (OneTable t) -> t <> "" -> tables sent = [t]) /\
  (forall ts, Args.table args = Some (ManyTables ts) -> tables sent = ts).
Proof.
  intros Hi.
  destruct Handler_cases as [(e & _ & Htrace & _)|(config & _ & _ & Hrun)].
  { by rewrite Htrace in Hi. }
  cbn zeta in Hrun.
  destruct (flag_set (Args.local args)); [by rewrite Hrun in Hi|].
  destruct (flag_set (Args.remote args)); [|by rewrite Hrun in Hi].
  destruct Hrun as (Htrace & _). rewrite Htrace in Hi.
  destruct (export_polled (export_host cli) polls config (Args.name args)
              (Args.output args) (tables_of (Args.table args))
              (Args.noSchema args) (Args.noData args)
              {| net := snd (printWranglerBanner cli (net w)); files := files w |})
    as (acct & db & out & Hpolled & _).
  destruct (polled_request _ _ _ _ _ _ _ _ _ _ _ Hpolled Hi) as [b ->].
  cbn. split; [done|]. split; [done|]. split; [|split].
  - by intros [-> | ->].
  - intros t -> Ht. cbn. by apply String.eqb_neq in Ht as ->.
  - by intros ts ->.
Qed.

End HandlerFacts.

(** ** More of [pollExport] and [exportRemotely] *)

Lemma owed_after_app owed t1 t2 :
  owed_after owed (t1 ++ t2) = owed_after owed t1 ≫= fun o => owed_after o t2.
Proof.
  revert owed. induction t1 as [|[] t1 IH]; intros owed; cbn; [done|..]; try apply IH.
  - destruct owed; [done | apply IH].
  - destruct owed; [apply IH | done].
Qed.

Lemma owed_after_console lines :
  owed_after (length lines) (map ConsoleLog lines) = Some 0.
Proof. induction lines; [reflexivity | done]. Qed.

(** What is printed before a request is what the replies so far brought,
    line for line. *)
Lemma owed_after_prefix owed t1 req reply t2 o :
  owed_after owed (t1 ++ ApiCall req reply :: t2) = Some o ->
  length (console_lines t1) = owed + length (received_lines (api_calls t1)).
Proof.
  unfold received_lines. revert owed. induction t1 as [|ev t1 IH]; intros owed Howed.
  - cbn in *. by destruct owed.
  - destruct ev; cbn in Howed |- *; try by apply IH.
    + destruct owed as [|owed]; [done|]. apply IH in Howed. lia.
    + destruct owed as [|owed]; [|done]. apply IH in Howed.
      rewrite length_app. lia.
Qed.

Lemma polled_returned_last accountId db options bookmark n calls lines out response :
  polled accountId db options bookmark n calls lines out ->
  out = Returned response ->
  exists req, last calls = Some (req, Resolved (Success response)).
Proof.
  induction 1 as [|b n reply Hstop|b n r calls lines out Hactive Hrun IH];
    intros Hout; [done|..].
  - apply verdict_returned in Hout as [-> _]. by eexists.
  - destruct (IH Hout) as [req Hlast]. exists req.
    destruct calls; [done|]. by rewrite last_cons, Hlast.
Qed.

Section PollMore.

Context {Net Config : Type} (host : Host Net Config).

Lemma pollExport_owed polls accountId db options bookmark n (w : World Net) :
  owed_after 0 (trace (pollExport host polls accountId db options bookmark n w)) = Some 0.
Proof.
  revert bookmark n w. induction polls as [|polls IH]; intros bookmark n w; [done|].
  rewrite pollExport_step.
  destruct (fetchResult host _ (net w)) as [reply n1]. cbn [fst snd].
  assert (Hlines : owed_after (length (lines_of reply))
            (map ConsoleLog (printed (lines_of reply) n)) = Some 0).
  { rewrite <- (printed_length (lines_of reply) n). apply owed_after_console. }
  destruct (verdict reply) eqn:Hverdict; cbn [trace owed_after]; try done.
  rewrite owed_after_app, Hlines. cbn.
  destruct reply as [[response|err]|e]; first [done | apply IH].
Qed.

(** X9, no end while the job is active: when the API answers every request
    with status [active], [pollExport] makes as many requests as the bound
    allows and has then neither returned nor thrown. *)
Theorem pollExport_polls_while_active polls accountId db options bookmark n (w : World Net) :
  (forall req net0, exists response,
     fst (fetchResult host req net0) = Resolved (Success response) /\
     status (result response) = StActive) ->
  let run := pollExport host polls accountId db options bookmark n w in
  outcome run = Pending /\ length (api_calls (trace run)) = polls.
Proof.
  intros Hactive. cbn zeta. revert bookmark n w.
  induction polls as [|polls IH]; intros bookmark n w; [done|].
  rewrite pollExport_step.
  destruct (Hactive (export_request accountId db options bookmark) (net w))
    as (response & Hreply & Hstatus).
  rewrite Hreply. cbn [verdict]. rewrite Hstatus. cbn [trace outcome api_calls].
  rewrite api_calls_app, api_calls_console. cbn [app length].
  destruct (IH (Some (at_bookmark (result response)))
              (counted (messages (result response)) n)
              {| net := snd (fetchResult host
                   (export_request accountId db options bookmark) (net w));
                 files := files w |}) as [-> ->].
  done.
Qed.

End PollMore.

Section ExportMore.

Context {Net Config : Type} (host : Host Net Config).
Variables (polls : nat) (config : Config) (name output : string)
  (tbls : list string) (ns nd : option bool) (w : World Net).

Let options := {| noSchema := ns; noData := nd; tables := tbls |}.
Let E := exportRemotely host polls config name output tbls ns nd w.

Ltac export_cases_as Hcase :=
  pose proof (export_cases host
                (throw (JsError "Error: D1 reset before export completed!"))
                polls config name output tbls ns nd w) as Hcase;
  change (exportRemotely_with _ _ _ _ _ _ _ _ _ _) with E in Hcase.

(** X4, nothing happens without an account and a database: when
    [requireAuth] or [getDatabaseByNameOrBinding] rejects, the export throws
    what they rejected with, and has logged, requested and written nothing. *)
Theorem export_lookup_failure e :
  fst (requireAuth host config (net w)) = Rejected e \/
  (exists acct n1,
     requireAuth host config (net w) = (Resolved acct, n1) /\
     fst (getDatabaseByNameOrBinding host config acct name n1) = Rejected e) ->
  outcome E = Thrown e /\ trace E = [] /\ files (final E) = files w.
Proof.
  intros Hfail. export_cases_as Hcase.
  destruct Hcase as [(e' & Hout & Htrace & Hfiles)|(acct & n1 & db & n2 & Hauth & Hdb & _)].
  - split; [|done]. rewrite Hout. f_equal.
    subst E. unfold exportRemotely, exportRemotely_with in Hout.
    unfold mbind, M_bind, bind, await in Hout.
    destruct Hfail as [Hauth|(acct & n1 & Hauth & Hdb)].
    + destruct (requireAuth host config (net w)) as [[acct|e0] n1]; cbn in Hauth, Hout;
        congruence.
    + rewrite Hauth in Hout. cbn [trace outcome final net files prepend] in Hout.
      destruct (getDatabaseByNameOrBinding host config acct name n1) as [[db|e0] n2];
        cbn in Hdb, Hout; congruence.
  - destruct Hfail as [Hfail|(acct' & n1' & Hauth' & Hfail)].
    + by rewrite Hauth in Hfail.
    + rewrite Hauth in Hauth'. injection Hauth' as <- <-. by rewrite Hdb in Hfail.
Qed.

(** X5, a request that fails: when [fetchResult] rejects, the export throws
    what it rejected with; that request is the last one and nothing is
    downloaded or written. *)
Theorem export_transport_failure i req e :
  api_calls (trace E) !! i = Some (req, Rejected e) ->
  outcome E = Thrown e /\
  length (api_calls (trace E)) = S i /\
  http_gets (trace E) = [] /\ file_writes (trace E) = [].
Proof.
  intros Hi.
  destruct (export_polled host polls config name output tbls ns nd w)
    as (acct & db & out & Hpolled & Hthrown).
  destruct (polled_stop _ _ _ _ _ _ _ _ _ _ _ Hpolled Hi) as [Hlast Hout]; [done|].
  destruct (Hthrown _ Hout) as (? & ? & ?). done.
Qed.

(** X6, a download that fails: when the GET of the signed URL rejects, the
    export throws what it rejected with and writes nothing; every file is as
    it was. *)
Theorem export_download_failure target e :
  (target, Rejected e) ∈ http_gets (trace E) ->
  outcome E = Thrown e /\ file_writes (trace E) = [] /\
  files (final E) = files w.
Proof.
  intros Hget. export_cases_as Hcase.
  destruct Hcase as [(e' & _ & Htrace & _)|(acct & n1 & db & n2 & _ & _ & _ & _ & Hout)].
  { rewrite Htrace in Hget. by apply elem_of_nil in Hget. }
  cbn zeta in Hout.
  destruct (outcome (pollExport _ _ _ _ _ _ _ _)) as [response|e'|].
  - destruct Hout as (handle & _ & Hgets & Hrest).
    rewrite Hgets in Hget. apply list_elem_of_singleton in Hget.
    injection Hget as _ Hreply. by rewrite <- Hreply in Hrest.
  - destruct Hout as (_ & Hgets & _). rewrite Hgets in Hget. by apply elem_of_nil in Hget.
  - destruct Hout as (_ & Hgets & _). rewrite Hgets in Hget. by apply elem_of_nil in Hget.
Qed.

(** X7, only the output file is written: whatever the host answers and
    however the export ends, every write goes to the output path and every
    other file is as it was. *)
Theorem export_writes_only_output :
  (forall path data, (path, data) ∈ file_writes (trace E) -> path = output) /\
  (forall path, path <> output -> files (final E) !! path = files w !! path).
Proof.
  export_cases_as Hcase.
  destruct Hcase as [(e' & _ & Htrace & Hfiles)|(acct & n1 & db & n2 & _ & _ & _ & _ & Hout)].
  { rewrite Htrace, Hfiles. split; [|done]. intros ?? Hin. by apply elem_of_nil in Hin. }
  cbn zeta in Hout.
  assert (file_writes (trace E) = [] /\ files (final E) = files w \/
          exists data, file_writes (trace E) = [(output, data)] /\
                       files (final E) = <[output := data]> (files w))
    as [[-> ->]|(data & -> & ->)].
  { destruct (outcome (pollExport _ _ _ _ _ _ _ _)) as [response|e'|].
    - destruct Hout as (handle & _ & _ & Hrest).
      destruct (fst (fetch host _ _)) as [contents|e'].
      + destruct (writeFault host output _); [left | right; eexists]; by destruct Hrest as (_ & ? & ?).
      + left. by destruct Hrest as (_ & ? & ?).
    - left. by destruct Hout as (_ & _ & ? & ?).
    - left. by destruct Hout as (_ & _ & ? & ?). }
  - split; [|done]. intros ?? Hin. by apply elem_of_nil in Hin.
  - split.
    + intros path data' Hin. apply list_elem_of_singleton in Hin. congruence.
    + intros path Hpath. by rewrite lookup_insert_ne.
Qed.

(** X8, success means a download and a write: when the export returns, its
    last status request was answered with status [complete], it made one GET,
    of that reply's signed URL, which resolved, and it wrote the body (the
    empty string for a [null] body) to the output path, once. *)
Theorem export_returns_after_write :
  outcome E = Returned tt ->
  exists req response handle contents,
    last (api_calls (trace E)) = Some (req, Resolved (Success response)) /\
    status (result response) = StComplete handle /\
    http_gets (trace E) = [(signedUrl handle, Resolved contents)] /\
    file_writes (trace E) = [(output, default "" (fetch_body contents))] /\
    files (final E) = <[output := default "" (fetch_body contents)]> (files w).
Proof.
  intros Hreturned. export_cases_as Hcase.
  destruct Hcase as [(e' & Hout & _)|(acct & n1 & db & n2 & _ & _ & Hcalls & _ & Hout)].
  { congruence. }
  cbn zeta in Hcalls, Hout. fold options in Hcalls, Hout.
  pose proof (pollExport_polled host acct db options polls None 0%N
                {| net := n2; files := files w |}) as Hpolled.
  cbn zeta in Hpolled.
  destruct (outcome (pollExport _ _ _ _ _ _ _ _)) as [response|e'|] eqn:Hpoll.
  - destruct (polled_returned_last _ _ _ _ _ _ _ _ _ Hpolled eq_refl) as [req Hlast].
    destruct Hout as (handle & Hstatus & Hgets & Hrest).
    destruct (fst (fetch host _ _)) as [contents|e']; [|destruct Hrest; congruence].
    cbn zeta in Hrest.
    destruct (writeFault host output _); [destruct Hrest; congruence|].
    destruct Hrest as (_ & Hwrites & Hfiles).
    exists req, response, handle, contents. rewrite Hcalls. done.
  - destruct Hout; congruence.
  - destruct Hout; congruence.
Qed.

(** X10, where the requests go: every status request of an export is a POST
    to [/accounts/<account>/d1/database/<uuid>/export], for the account
    [requireAuth] resolved with and the database the lookup resolved with,
    has the header [x-d1-internal-env: staging] and asks for the output
    format [polling]. *)
Theorem export_request_target i req reply :
  api_calls (trace E) !! i = Some (req, reply) ->
  exists acct n1 db n2,
    requireAuth host config (net w) = (Resolved acct, n1) /\
    getDatabaseByNameOrBinding host config acct name n1 = (Resolved db, n2) /\
    url req = "/accounts/" +:+ acct +:+ "/d1/database/" +:+ uuid db +:+ "/export" /\
    method req = "POST" /\
    headers req = [("x-d1-internal-env", "staging")] /\
    outputFormat (body req) = "polling".
Proof.
  intros Hi. export_cases_as Hcase.
  destruct Hcase as [(e' & _ & Htrace & _)|(acct & n1 & db & n2 & Hauth & Hdb & Hcalls & _)].
  { by rewrite Htrace in Hi. }
  cbn zeta in Hcalls. fold options in Hcalls. rewrite Hcalls in Hi.
  pose proof (pollExport_polled host acct db options polls None 0%N
                {| net := n2; files := files w |}) as Hpolled.
  destruct (polled_request _ _ _ _ _ _ _ _ _ _ _ Hpolled Hi) as [b ->].
  by exists acct, n1, db, n2.
Qed.

(** X11, one thing at a time: when a status request is made, every line of
    the replies received so far has been printed, and nothing else has. *)
Theorem export_prints_before_next_request before req reply after :
  trace E = before ++ ApiCall req reply :: after ->
  length (console_lines before) = length (received_lines (api_calls before)).
Proof.
  intros Htrace.
  assert (exists o, owed_after 0 (trace E) = Some o) as [o Howed].
  { clear Htrace. subst E. unfold exportRemotely, exportRemotely_with.
    unfold mbind, M_bind, bind, await, logger_log, emit, fs_writeFile.
    destruct (requireAuth host config (net w)) as [[acct|e] n1];
      cbn [trace outcome final net files prepend app]; [|by eexists].
    destruct (getDatabaseByNameOrBinding host config acct name n1) as [[db|e] n2];
      cbn [trace outcome final net files prepend app]; [|by eexists].
    pose proof (pollExport_owed host polls acct db options None 0%N
                  {| net := n2; files := files w |}) as Hpoll.
    fold options.
    set (P := pollExport host polls acct db options None 0 {| net := n2; files := files w |}) in *.
    destruct (outcome P) as [response|e|];
      cbn [trace outcome final net files prepend app owed_after];
      [|rewrite ?app_nil_r; eauto..].
    destruct (status (result response));
      cbn [trace outcome final net files prepend app owed_after throw];
      rewrite ?app_nil_r; eauto.
    destruct (fetch host _ _) as [[contents|e] n3];
      cbn [trace outcome final net files prepend app owed_after].
    - destruct (writeFault host output _);
        cbn [trace outcome final net files prepend app owed_after];
        rewrite owed_after_app, Hpoll; by eexists.
    - rewrite owed_after_app, Hpoll. by eexists. }
  rewrite Htrace in Howed. apply owed_after_prefix in Howed. lia.
Qed.

End ExportMore.

(** * create-cloudflare: types for a new worker *)

(** ** Searching and replacing *)

Lemma string_length_append (s t : string) :
  String.length (s +:+ t) = String.length s + String.length t.
Proof. induction s as [|c s IH]; [reflexivity|]. rewrite append_cons. cbn. by rewrite IH. Qed.

Lemma string_drop_append (s t : string) : string_drop (String.length s) (s +:+ t) = t.
Proof. induction s as [|c s IH]; [reflexivity|]. by rewrite append_cons. Qed.

Lemma append_inv_head (s t u : string) : s +:+ t = s +:+ u -> t = u.
Proof. induction s as [|c s IH]; [done|]. rewrite !append_cons. intros [= ?]. auto. Qed.

Lemma prefix_append (pattern rest : string) : String.prefix pattern (pattern +:+ rest) = true.
Proof. apply (startsWith_spec (pattern +:+ rest) pattern). by exists rest. Qed.

Lemma prefix_drop (pattern s : string) :
  String.prefix pattern s = true ->
  s = pattern +:+ string_drop (String.length pattern) s.
Proof.
  intros Hprefix. apply (startsWith_spec s pattern) in Hprefix as [rest ->].
  by rewrite string_drop_append.
Qed.

(** [split_first] finds an occurrence, and the first one. *)
Lemma split_first_spec pattern s before after :
  split_first pattern s = Some (before, after) ->
  s = before +:+ pattern +:+ after /\
  forall before' after',
    s = before' +:+ pattern +:+ after' -> String.length before <= String.length before'.
Proof.
  revert before. induction s as [|c s IH]; intros before; cbn [split_first].
  - destruct (String.prefix pattern "") eqn:Hprefix; [|done].
    intros [= <- <-]. split; [|cbn; lia]. by apply prefix_drop.
  - destruct (String.prefix pattern (String c s)) eqn:Hprefix.
    + intros [= <- <-]. split; [|cbn; lia]. by apply prefix_drop.
    + destruct (split_first pattern s) as [[b a]|] eqn:Hsplit; [|done].
      intros [= <- <-]. destruct (IH b eq_refl) as [-> Hfirst].
      split; [done|]. intros [|c' before'] after' Hs.
      * rewrite Hs in Hprefix.
        change ("" +:+ pattern +:+ after') with (pattern +:+ after') in Hprefix.
        by rewrite prefix_append in Hprefix.
      * rewrite !append_cons in Hs. injection Hs as <- Hs.
        apply Hfirst in Hs. cbn. lia.
Qed.

Lemma split_first_none pattern s : split_first pattern s = None -> ~ includes s pattern.
Proof.
  induction s as [|c s IH]; cbn [split_first]; intros Hnone (before & after & Hs).
  - destruct (String.prefix pattern "") eqn:Hprefix; [done|].
    rewrite Hs in Hprefix. destruct before; [|done].
    change ("" +:+ pattern +:+ after) with (pattern +:+ after) in Hprefix.
    by rewrite prefix_append in Hprefix.
  - destruct (String.prefix pattern (String c s)) eqn:Hprefix; [done|].
    destruct before as [|c' before].
    + rewrite Hs in Hprefix.
      change ("" +:+ pattern +:+ after) with (pattern +:+ after) in Hprefix.
      by rewrite prefix_append in Hprefix.
    + rewrite append_cons in Hs. injection Hs as <- Hs.
      destruct (split_first pattern s) as [[b a]|]; [done|].
      apply IH; [done|]. by exists before, after.
Qed.

(** The first occurrence is what [split_first] finds. *)
Lemma split_first_at pattern before after :
  (forall before' after',
     before +:+ pattern +:+ after = before' +:+ pattern +:+ after' ->
     String.length before <= String.length before') ->
  split_first pattern (before +:+ pattern +:+ after) = Some (before, after).
Proof.
  intros Hfirst.
  destruct (split_first pattern (before +:+ pattern +:+ after)) as [[b a]|] eqn:Hsplit.
  - apply split_first_spec in Hsplit as [Hs Hleast].
    pose proof (Hfirst _ _ Hs) as Hle. pose proof (Hleast _ _ eq_refl) as Hge.
    assert (b = before) as ->.
    { clear -Hs Hle Hge. revert b Hs Hle Hge.
      induction before as [|c before IH]; intros [|c' b] Hs Hle Hge; cbn in Hle, Hge;
        try done; try lia.
      rewrite !append_cons in Hs. injection Hs as -> Hs. f_equal. apply IH; [done|lia..]. }
    apply append_inv_head, append_inv_head in Hs. by subst.
  - apply split_first_none in Hsplit. destruct Hsplit. by exists before, after.
Qed.

(** A replacement without a dollar stands for itself. *)
Lemma get_substitution_plain matched before after replacement :
  ~ includes replacement "$" ->
  get_substitution matched before after replacement = replacement.
Proof.
  induction replacement as [|c rest IH]; intros Hplain; [reflexivity|].
  assert (c <> "$"%char) as Hc.
  { intros ->. apply Hplain. by exists "", rest. }
  assert (~ includes rest "$") as Hrest.
  { intros (b & a & ->). apply Hplain. by exists (String c b), a. }
  transitivity (String c (get_substitution matched before after rest)); [|by rewrite IH].
  cbn [get_substitution].
  destruct c as [[] [] [] [] [] [] [] []]; try reflexivity. done.
Qed.

(** ** The order of names *)

Ltac div_lia := zify; Z.to_euclidean_division_equations; lia.

Lemma digit_compare (a b : N) :
  (a < 10)%N -> (b < 10)%N -> Ascii.compare (digit a) (digit b) = N.compare a b.
Proof.
  intros Ha Hb. unfold Ascii.compare, digit. rewrite !N_ascii_embedding by lia.
  destruct (N.compare_spec a b);
    [subst; apply N.compare_refl | apply N.compare_lt_iff; lia | apply N.compare_gt_iff; lia].
Qed.

Lemma compare_cons c c' (s s' : string) :
  String.compare (String c s) (String c' s') =
  match Ascii.compare c c' with Eq => String.compare s s' | other => other end.
Proof. reflexivity. Qed.

(** Two digits in front are compared as the number they write. *)
Lemma compare_two_digits (a b : N) (s t : string) :
  (a < 100)%N -> (b < 100)%N ->
  String.compare (two_digits a +:+ s) (two_digits b +:+ t) =
  match N.compare a b with Eq => String.compare s t | other => other end.
Proof.
  intros Ha Hb. unfold two_digits. rewrite !append_cons, !compare_cons.
  rewrite !digit_compare by div_lia.
  change ("" +:+ s) with s. change ("" +:+ t) with t.
  destruct (N.compare_spec (a / 10) (b / 10)) as [Hq|Hq|Hq];
    destruct (N.compare_spec (a mod 10) (b mod 10)) as [Hr|Hr|Hr];
    destruct (N.compare_spec a b) as [Hab|Hab|Hab];
    try reflexivity; exfalso; div_lia.
Qed.

Lemma compare_four_digits (a b : N) (s t : string) :
  (a < 10000)%N -> (b < 10000)%N ->
  String.compare (four_digits a +:+ s) (four_digits b +:+ t) =
  match N.compare a b with Eq => String.compare s t | other => other end.
Proof.
  intros Ha Hb. unfold four_digits. rewrite !append_assoc.
  rewrite compare_two_digits by div_lia.
  rewrite compare_two_digits by div_lia.
  destruct (N.compare_spec (a / 100) (b / 100)) as [Hq|Hq|Hq];
    destruct (N.compare_spec (a mod 100) (b mod 100)) as [Hr|Hr|Hr];
    destruct (N.compare_spec a b) as [Hab|Hab|Hab];
    try reflexivity; exfalso; div_lia.
Qed.

Lemma compare_refl (s : string) : String.compare s s = Eq.
Proof.
  induction s as [|c s IH]; [reflexivity|]. rewrite compare_cons.
  unfold Ascii.compare. by rewrite N.compare_refl.
Qed.

(** Dates written [YYYY-MM-DD] are ordered as names the way they are
    ordered in time. *)
Lemma iso_date_leb y m d y' m' d' :
  is_date y m d -> is_date y' m' d' ->
  String.leb (iso_date y m d) (iso_date y' m' d') = true <->
  earlier_or_same (y, m, d) (y', m', d').
Proof.
  intros (Hy & Hm & Hd) (Hy' & Hm' & Hd'). unfold String.leb, iso_date, earlier_or_same.
  rewrite compare_four_digits by done.
  change ("-" +:+ ?s) with (String "-" s). rewrite !compare_cons.
  change (Ascii.compare "-" "-") with Eq. cbv iota.
  rewrite compare_two_digits by done.
  change ("-" +:+ ?s) with (String "-" s). rewrite !compare_cons.
  change (Ascii.compare "-" "-") with Eq. cbv iota.
  rewrite <- (append_empty_r (two_digits d)), <- (append_empty_r (two_digits d')).
  rewrite compare_two_digits by done. cbn [String.compare].
  destruct (N.compare_spec y y'); destruct (N.compare_spec m m');
    destruct (N.compare_spec d d'); split; intros; first [done | lia].
Qed.

Lemma has_date_iso y m d : is_date y m d -> has_date (iso_date y m d) = true.
Proof.
  intros (Hy & Hm & Hd).
  assert (Hdigit : forall n, (n < 10)%N -> is_digit (digit n) = true).
  { intros n Hn. unfold is_digit, digit. rewrite N_ascii_embedding by lia.
    apply andb_true_iff. split; apply N.leb_le; lia. }
  unfold iso_date, four_digits, two_digits.
  repeat first
    [ rewrite append_cons
    | match goal with
      | |- context [EmptyString +:+ ?s] => change (EmptyString +:+ s) with s
      end ].
  cbn [has_date starts_with_classes date_classes].
  rewrite !Hdigit by div_lia. reflexivity.
Qed.

(** ** [getLatestTypesEntrypoint] *)

Lemma sorted_entrypoints_sorted entrypoints :
  StronglySorted String.le (merge_sort String.le (List.filter has_date entrypoints)).
Proof. apply StronglySorted_merge_sort; apply _. Qed.

Lemma sorted_entrypoints_elem_of entrypoints f :
  f ∈ sorted_entrypoints entrypoints <-> f ∈ entrypoints /\ has_date f = true.
Proof.
  unfold sorted_entrypoints. rewrite elem_of_reverse, merge_sort_Permutation.
  rewrite !list_elem_of_In. apply filter_In.
Qed.

(** The first of [sorted_entrypoints] is a dated name of the directory, and no
    dated name of the directory comes after it. *)
Lemma sorted_entrypoints_head entrypoints latest :
  head (sorted_entrypoints entrypoints) = Some latest ->
  latest ∈ entrypoints /\ has_date latest = true /\
  forall f, f ∈ entrypoints -> has_date f = true -> String.leb f latest = true.
Proof.
  intros Hhead.
  assert (latest ∈ sorted_entrypoints entrypoints) as Hin.
  { destruct (sorted_entrypoints entrypoints); [done|]. injection Hhead as ->. left. }
  apply sorted_entrypoints_elem_of in Hin as [Hin Hdate]. split; [done|]. split; [done|].
  intros f Hf Hfdate.
  assert (f ∈ sorted_entrypoints entrypoints) as Hfin by by apply sorted_entrypoints_elem_of.
  unfold sorted_entrypoints in Hhead, Hfin. rewrite head_reverse in Hhead.
  rewrite elem_of_reverse in Hfin.
  pose proof (sorted_entrypoints_sorted entrypoints) as Hsorted.
  apply last_Some in Hhead as [sorted Hsplit]. rewrite Hsplit in Hfin, Hsorted.
  apply elem_of_app in Hfin as [Hfin|Hfin].
  - apply Is_true_true.
    apply (StronglySorted_app_1_elem_of String.le sorted [latest] f latest Hsorted Hfin).
    left.
  - apply list_elem_of_singleton in Hfin as ->.
    apply Is_true_true. change (String.le latest latest). reflexivity.
Qed.

Lemma sorted_entrypoints_nil entrypoints :
  sorted_entrypoints entrypoints = [] <-> forall f, f ∈ entrypoints -> has_date f = false.
Proof.
  split.
  - intros Hnil f Hf. destruct (has_date f) eqn:Hdate; [|done].
    assert (f ∈ sorted_entrypoints entrypoints) as Hin by by apply sorted_entrypoints_elem_of.
    rewrite Hnil in Hin. by apply elem_of_nil in Hin.
  - intros Hnone. destruct (sorted_entrypoints entrypoints) as [|f rest] eqn:Hlist; [done|].
    assert (f ∈ sorted_entrypoints entrypoints) as Hin by (rewrite Hlist; left).
    apply sorted_entrypoints_elem_of in Hin as [Hin Hdate]. by rewrite Hnone in Hdate.
Qed.



Section WorkersFacts.

Variable host : WorkersHost.
Variables (ctx : C3.Context) (p : Project).

Let types_dir :=
  path_resolve host
    [C3.path (C3.project ctx); "node_modules"; "@cloudflare"; "workers-types"].
Let tsconfigPath := path_join host [C3.path (C3.project ctx); "tsconfig.json"].
Let package := "@cloudflare/workers-types".

(** [getLatestTypesEntrypoint] in one piece: the first of [sorted_entrypoints],
    or [null]; the project stays as it is. *)
Lemma getLatestTypesEntrypoint_run :
  getLatestTypesEntrypoint host ctx p =
  (Resolved match readdirSync host (disk p) types_dir with
            | Resolved entrypoints => head (sorted_entrypoints entrypoints)
            | Rejected _ => None
            end, p).
Proof.
  unfold getLatestTypesEntrypoint. fold types_dir.
  destruct (readdirSync host (disk p) types_dir) as [entrypoints|e]; [|done].
  by destruct (sorted_entrypoints entrypoints).
Qed.

Lemma head_sorted_entrypoints_None entrypoints :
  head (sorted_entrypoints entrypoints) = None <->
  forall f, f ∈ entrypoints -> has_date f = false.
Proof.
  rewrite <- sorted_entrypoints_nil. by destruct (sorted_entrypoints entrypoints).
Qed.


(** X13, [null] and nothing else: [getLatestTypesEntrypoint] never throws
    and changes nothing; it returns [null] exactly when the directory cannot
    be listed or none of its names contains a date. *)
Theorem latest_entrypoint_null :
  snd (getLatestTypesEntrypoint host ctx p) = p /\
  exists found,
    fst (getLatestTypesEntrypoint host ctx p) = Resolved found /\
    (found = None <->
     (exists e, readdirSync host (disk p) types_dir = Rejected e) \/
     (exists entrypoints,
        readdirSync host (disk p) types_dir = Resolved entrypoints /\
        forall f, f ∈ entrypoints -> has_date f = false)).
Proof.
  rewrite getLatestTypesEntrypoint_run. cbn [fst snd]. split; [done|].
  eexists. split; [reflexivity|].
  destruct (readdirSync host (disk p) types_dir) as [entrypoints|e].
  - rewrite head_sorted_entrypoints_None. split.
    + intros Hnone. right. by exists entrypoints.
    + by intros [[e He]|(l & [= <-] & Hnone)].
  - split; [|done]. intros _. left. by exists e.
Qed.


(** X15, the latest date: when the dated names of the directory are dates
    written [YYYY-MM-DD], the entry point returned is the latest of them. *)
Theorem latest_entrypoint_latest_date entrypoints y m d :
  readdirSync host (disk p) types_dir = Resolved entrypoints ->
  is_date y m d -> iso_date y m d ∈ entrypoints ->
  (forall f, f ∈ entrypoints -> has_date f = true ->
     exists y' m' d',
       is_date y' m' d' /\ f = iso_date y' m' d' /\
       earlier_or_same (y', m', d') (y, m, d)) ->
  fst (getLatestTypesEntrypoint host ctx p) = Resolved (Some (iso_date y m d)).
Proof.
  intros Hlist Hdate Hin Hdated.
  rewrite getLatestTypesEntrypoint_run, Hlist. cbn [fst]. f_equal.
  destruct (head (sorted_entrypoints entrypoints)) as [latest|] eqn:Hhead.
  - apply sorted_entrypoints_head in Hhead as (Hlatest & Hlatest_date & Hmax).
    destruct (Hdated latest Hlatest Hlatest_date) as (y' & m' & d' & Hdate' & -> & Hle).
    f_equal. apply String.leb_antisym.
    + by apply iso_date_leb.
    + apply Hmax; [done | by apply has_date_iso].
  - pose proof (proj1 (head_sorted_entrypoints_None entrypoints) Hhead _ Hin) as Hno.
    by rewrite has_date_iso in Hno.
Qed.

(** ** [updateTsConfig] and [installWorkersTypes] *)

Lemma prefix_common (pattern x y y' : string) :
  String.length pattern <= String.length x ->
  String.prefix pattern (x +:+ y) = String.prefix pattern (x +:+ y').
Proof.
  revert x. induction pattern as [|c pattern IH]; intros x Hlen.
  - by destruct (x +:+ y), (x +:+ y').
  - destruct x as [|c' x]; [cbn in Hlen; lia|].
    rewrite !append_cons. cbn [String.prefix].
    destruct (ascii_dec c c'); [|done]. apply IH. cbn in Hlen. lia.
Qed.

(** Where the first occurrence is does not depend on what follows it. *)
Lemma split_first_after pattern before after after' :
  split_first pattern (before +:+ pattern +:+ after) = Some (before, after) ->
  split_first pattern (before +:+ pattern +:+ after') = Some (before, after').
Proof.
  induction before as [|c before IH].
  - intros _. change ("" +:+ pattern +:+ after') with (pattern +:+ after').
    destruct (pattern +:+ after') eqn:Htext; cbn [split_first];
      rewrite <- Htext, prefix_append, string_drop_append; done.
  - assert (Hshape : forall a,
      String c (before +:+ pattern +:+ a) = (String c before +:+ pattern) +:+ a)
      by (intros a; by rewrite append_assoc, append_cons).
    rewrite !append_cons. cbn [split_first]. rewrite !Hshape.
    rewrite (prefix_common pattern (String c before +:+ pattern) after after')
      by (rewrite string_length_append; lia).
    destruct (String.prefix pattern ((String c before +:+ pattern) +:+ after')); [done|].
    destruct (split_first pattern (before +:+ pattern +:+ after)) as [[b a]|] eqn:Hsplit;
      [|done].
    intros [= -> ->]. by rewrite IH.
Qed.

Lemma package_plain entrypointVersion :
  ~ includes entrypointVersion "$" ->
  ~ includes ("@cloudflare/workers-types/" +:+ entrypointVersion) "$".
Proof.
  intros Hplain Hdollar. apply Hplain. clear Hplain.
  destruct Hdollar as (before & after & Hsplit).
  do 26 (destruct before as [|? before];
         [discriminate Hsplit | rewrite append_cons in Hsplit; injection Hsplit as <- Hsplit]).
  by exists before, after.
Qed.

Lemma getLatestTypesEntrypoint_disk (q : Project) :
  disk q = disk p ->
  getLatestTypesEntrypoint host ctx q = (fst (getLatestTypesEntrypoint host ctx p), q).
Proof.
  intros Hdisk. unfold getLatestTypesEntrypoint. rewrite Hdisk.
  destruct (readdirSync host (disk p) _) as [entrypoints|e]; [|done].
  by destruct (sorted_entrypoints entrypoints).
Qed.

(** The run of [updateTsConfig], case by case. *)
Lemma updateTsConfig_run :
  updateTsConfig host ctx p =
  match disk p !! tsconfigPath with
  | None => (Resolved tt, p)
  | Some tsconfig =>
      let start := SpinnerStart "Adding latest types to `tsconfig.json`" in
      match fst (getLatestTypesEntrypoint host ctx p) with
      | Resolved (Some version) =>
          (Resolved tt,
           {| disk := <[tsconfigPath :=
                          js_replace tsconfig package (package +:+ "/" +:+ version)]>
                        (disk p);
              shown := shown p ++
                [start;
                 SpinnerStop (brandColor host "added" +:+ " " +:+
                              dim host (package +:+ "/" +:+ version))] |})
      | _ =>
          (Resolved tt,
           {| disk := disk p;
              shown := shown p ++
                [start;
                 SpinnerStop (brandColor host "skipped" +:+
                   " couldn't find latest compatible version of @cloudflare/workers-types")] |})
      end
  end.
Proof.
  unfold updateTsConfig, existsSync, readFile, writeFile, show, mbind, W_bind, mret, W_ret.
  fold tsconfigPath. cbn [disk shown].
  destruct (disk p !! tsconfigPath) as [tsconfig|] eqn:Htsconfig.
  - rewrite bool_decide_true by eauto. cbn [negb disk shown]. rewrite Htsconfig.
    rewrite getLatestTypesEntrypoint_disk by done.
    rewrite getLatestTypesEntrypoint_run. cbn [fst].
    destruct (match readdirSync host (disk p) types_dir with
              | Resolved entrypoints => head (sorted_entrypoints entrypoints)
              | Rejected _ => None
              end) as [version|]; cbn [disk shown]; by rewrite <- app_assoc.
  - rewrite bool_decide_false by (intros [? ?]; done). done.
Qed.

(** X16, only [tsconfig.json]: [updateTsConfig] changes no other file, and
    does nothing at all when there is no [tsconfig.json]. *)
Theorem updateTsConfig_only_tsconfig :
  (forall file, file <> tsconfigPath ->
     disk (snd (updateTsConfig host ctx p)) !! file = disk p !! file) /\
  (disk p !! tsconfigPath = None ->
     updateTsConfig host ctx p = (Resolved tt, p)).
Proof.
  rewrite updateTsConfig_run.
  destruct (disk p !! tsconfigPath) as [tsconfig|]; [|done]. cbn zeta.
  destruct (fst (getLatestTypesEntrypoint host ctx p)) as [[version|]|e]; cbn;
    (split; [|done]); try done.
  intros file Hfile. by rewrite lookup_insert_ne.
Qed.


(** What [updateTsConfig] writes when [indexOf] finds the package. *)
Lemma updateTsConfig_replaces before after version :
  disk p !! tsconfigPath = Some (before +:+ package +:+ after) ->
  split_first package (before +:+ package +:+ after) = Some (before, after) ->
  fst (getLatestTypesEntrypoint host ctx p) = Resolved (Some version) ->
  ~ includes version "$" ->
  disk (snd (updateTsConfig host ctx p)) =
    <[tsconfigPath := before +:+ package +:+ "/" +:+ version +:+ after]> (disk p).
Proof.
  intros Htsconfig Hsplit Hversion Hplain.
  rewrite updateTsConfig_run, Htsconfig, Hversion. cbn zeta. cbn [snd disk].
  unfold js_replace. rewrite Hsplit.
  rewrite get_substitution_plain by by apply package_plain.
  by rewrite !append_assoc.
Qed.

(** X18, the first mention gets the entry point: when [tsconfig.json]
    mentions the package, its first mention, and no other, is followed by a
    slash and the entry point; the text before and after stays.  The entry
    point has no dollar in it. *)
Theorem updateTsConfig_first_mention before after version :
  disk p !! tsconfigPath = Some (before +:+ package +:+ after) ->
  (forall before' after',
     before +:+ package +:+ after = before' +:+ package +:+ after' ->
     String.length before <= String.length before') ->
  fst (getLatestTypesEntrypoint host ctx p) = Resolved (Some version) ->
  ~ includes version "$" ->
  disk (snd (updateTsConfig host ctx p)) =
    <[tsconfigPath := before +:+ package +:+ "/" +:+ version +:+ after]> (disk p).
Proof.
  intros Htsconfig Hfirst Hversion Hplain.
  apply updateTsConfig_replaces; try done.
  by apply split_first_at.
Qed.

(** X19, added, though nothing was: when [tsconfig.json] does not mention
    the package, [updateTsConfig] leaves every file as it is and still stops
    the spinner with [added] and the entry point. *)
Theorem updateTsConfig_without_mention tsconfig version :
  disk p !! tsconfigPath = Some tsconfig ->
  ~ includes tsconfig package ->
  fst (getLatestTypesEntrypoint host ctx p) = Resolved (Some version) ->
  disk (snd (updateTsConfig host ctx p)) = disk p /\
  shown (snd (updateTsConfig host ctx p)) =
    shown p ++
      [SpinnerStart "Adding latest types to `tsconfig.json`";
       SpinnerStop (brandColor host "added" +:+ " " +:+
                    dim host (package +:+ "/" +:+ version))].
Proof.
  intros Htsconfig Hmention Hversion.
  rewrite updateTsConfig_run, Htsconfig, Hversion. cbn zeta. cbn [snd disk shown].
  split; [|done]. unfold js_replace.
  destruct (split_first package tsconfig) as [[before after]|] eqn:Hsplit.
  - apply split_first_spec in Hsplit as [-> _]. destruct Hmention. by exists before, after.
  - by apply insert_id.
Qed.

End WorkersFacts.

Section WorkersTwice.

Variable host : WorkersHost.
Variable ctx : C3.Context.

Let tsconfigPath := path_join host [C3.path (C3.project ctx); "tsconfig.json"].
Let package := "@cloudflare/workers-types".

(** X20, not a second time: run again on its own result, with the same
    entry point, [updateTsConfig] puts the entry point after the first
    mention once more, so that the mention ends in the entry point twice. *)
Theorem updateTsConfig_twice (p : Project) before after version :
  disk p !! tsconfigPath = Some (before +:+ package +:+ after) ->
  (forall before' after',
     before +:+ package +:+ after = before' +:+ package +:+ after' ->
     String.length before <= String.length before') ->
  fst (getLatestTypesEntrypoint host ctx p) = Resolved (Some version) ->
  ~ includes version "$" ->
  let once := snd (updateTsConfig host ctx p) in
  fst (getLatestTypesEntrypoint host ctx once) = Resolved (Some version) ->
  disk once !! tsconfigPath =
    Some (before +:+ package +:+ "/" +:+ version +:+ after) /\
  disk (snd (updateTsConfig host ctx once)) !! tsconfigPath =
    Some (before +:+ package +:+ "/" +:+ version +:+ "/" +:+ version +:+ after).
Proof.
  intros Htsconfig Hfirst Hversion Hplain once Hagain.
  assert (disk once !! tsconfigPath =
          Some (before +:+ package +:+ "/" +:+ version +:+ after)) as Honce.
  pose proof (split_first_at _ _ _ Hfirst) as Hsplit.
  { subst once.
    rewrite (updateTsConfig_replaces host ctx p before after version) by done.
    apply lookup_insert_eq. }
  split; [done|].
  rewrite (updateTsConfig_replaces host ctx once before
             ("/" +:+ version +:+ after) version); [apply lookup_insert_eq|done| |done..].
  by apply split_first_after with (after := after), split_first_at.
Qed.

(** X21, types for TypeScript only: without [ts], [installWorkersTypes]
    does nothing at all; with it, the first thing it does is install
    [@cloudflare/workers-types], and nothing else, as a dev dependency. *)
Theorem installWorkersTypes_for_typescript (p : Project) :
  (C3.ts (C3.args ctx) <> Some true ->
     installWorkersTypes host ctx p = (Resolved tt, p)) /\
  (C3.ts (C3.args ctx) = Some true ->
     exists config rest,
       shown (snd (installWorkersTypes host ctx p)) =
         shown p ++ Installed ["@cloudflare/workers-types"] config :: rest /\
       dev config = true).
Proof.
  unfold installWorkersTypes, mbind, W_bind, mret, W_ret. split.
  - intros Hts. by destruct (C3.ts (C3.args ctx)) as [[]|].
  - intros ->. change (negb (flag_set (Some true))) with false. cbv beta iota.
    match goal with
    | |- context [installPackages host ?pkgs ?cfg (disk p)] =>
        destruct (installPackages host pkgs cfg (disk p)) as [[[]|e] files']
    end.
    + rewrite updateTsConfig_run. cbn [disk shown].
      destruct (files' !! _).
      * cbn zeta. destruct (fst (getLatestTypesEntrypoint host ctx _)) as [[v|]|e];
          cbn [snd shown]; rewrite <- app_assoc; by eexists _, _.
      * cbn [snd shown]. by eexists _, [].
    + cbn [snd shown]. by eexists _, [].
Qed.


End WorkersTwice.

(** * More scripted runs *)

Lemma Handler_local_refused_witness :
  let run := scripted_command (Some true) (Some true) None script_parts in
  trace run = [] /\
  outcome run = Thrown (JsError
    "Local imports/exports will be coming in a future version of Wrangler.").
Proof.
  destruct (Handler_local_refused (scripted_cli sql_body) 10
              (example_args (Some true) (Some true) None) (world0 script_parts) eq_refl)
    as (Htrace & _ & e & Hout & He).
  split; [exact Htrace|].
  rewrite (He tt eq_refl eq_refl) in Hout. exact Hout.
Defined.

Lemma Handler_target_required_witness :
  let run := scripted_command None (Some false) None script_parts in
  trace run = [] /\
  outcome run = Thrown (JsError "You must specify either --local or --remote").
Proof.
  destruct (Handler_target_required (scripted_cli sql_body) 10
              (example_args None (Some false) None) (world0 script_parts))
    as (Htrace & _ & e & Hout & He); [discriminate | discriminate |].
  split; [exact Htrace|].
  rewrite (He tt eq_refl eq_refl) in Hout. exact Hout.
Defined.

Lemma Handler_request_tables_witness :
  (exists req reply,
     api_calls (trace (scripted_command None (Some true) (Some (OneTable ""))
                         script_parts)) !! 1 = Some (req, reply) /\
     tables (spread (dumpOptions (body req))) = []) /\
  (exists req reply,
     api_calls (trace (scripted_command None (Some true)
                         (Some (ManyTables ["users"; "posts"]))
                         script_parts)) !! 1 = Some (req, reply) /\
     tables (spread (dumpOptions (body req))) = ["users"; "posts"]).
Proof.
  split.
  - eexists _, _. split; [reflexivity|].
    destruct (Handler_request_tables (scripted_cli sql_body) 10
                (example_args None (Some true) (Some (OneTable ""))) (world0 script_parts)
                1 _ _ eq_refl) as (_ & _ & Hnone & _ & _).
    apply Hnone. right. reflexivity.
  - eexists _, _. split; [reflexivity|].
    destruct (Handler_request_tables (scripted_cli sql_body) 10
                (example_args None (Some true) (Some (ManyTables ["users"; "posts"])))
                (world0 script_parts) 1 _ _ eq_refl) as (_ & _ & _ & _ & Hmany).
    apply Hmany. reflexivity.
Defined.

Lemma export_lookup_failure_witness :
  let run := exportRemotely logged_out 10 tt "mydb" "out.sql" [] None None
               (world0 script_parts) in
  outcome run = Thrown (JsError "Not logged in.") /\ trace run = [] /\
  files (final run) = files (world0 script_parts).
Proof.
  apply (export_lookup_failure logged_out 10 tt "mydb" "out.sql" [] None None
           (world0 script_parts)).
  left. reflexivity.
Defined.

Lemma export_transport_failure_witness :
  let run := scripted_export sql_body script_dropped in
  (exists req, api_calls (trace run) !! 1 = Some (req, Rejected (JsError "socket hang up"))) /\
  outcome run = Thrown (JsError "socket hang up") /\
  length (api_calls (trace run)) = 2 /\
  http_gets (trace run) = [] /\ file_writes (trace run) = [].
Proof.
  split; [eexists; reflexivity|].
  eapply (export_transport_failure (scripted sql_body) 10 tt "mydb" "out.sql"
            ["users"] (Some true) None (world0 script_dropped) 1).
  reflexivity.
Defined.

Lemma export_download_failure_witness :
  let gone := Rejected (JsError "ECONNRESET") in
  let run := scripted_export gone script_parts in
  http_gets (trace run) = [("https://x/y", gone)] /\
  outcome run = Thrown (JsError "ECONNRESET") /\ file_writes (trace run) = [] /\
  files (final run) !! "out.sql" = Some "stale".
Proof.
  cbn zeta. split; [reflexivity|].
  destruct (export_download_failure (scripted (Rejected (JsError "ECONNRESET"))) 10 tt
              "mydb" "out.sql" ["users"] (Some true) None (world0 script_parts)
              "https://x/y" (JsError "ECONNRESET")) as (Hout & Hwrites & Hfiles).
  { vm_compute. left. }
  split; [exact Hout|]. split; [exact Hwrites|].
  exact (eq_trans (f_equal (fun fs => fs !! "out.sql") Hfiles) eq_refl).
Defined.

Lemma export_writes_only_output_witness :
  let w := {| net := script_parts;
              files := <["notes.txt" := "keep"]> (<["out.sql" := "stale"]> ∅) |} in
  let run := exportRemotely (scripted sql_body) 10 tt "mydb" "out.sql" [] None None w in
  file_writes (trace run) = [("out.sql", "CREATE TABLE users (id INTEGER);")] /\
  files (final run) !! "notes.txt" = Some "keep".
Proof.
  cbn zeta. split; [reflexivity|].
  etrans;
    [apply (proj2 (export_writes_only_output (scripted sql_body) 10 tt "mydb" "out.sql"
                     [] None None _) "notes.txt"); discriminate
    | reflexivity].
Defined.

Lemma export_returns_after_write_witness :
  let run := scripted_export sql_body script_parts in
  outcome run = Returned tt /\
  exists req response handle contents,
    last (api_calls (trace run)) = Some (req, Resolved (Success response)) /\
    status (result response) = StComplete handle /\
    http_gets (trace run) = [(signedUrl handle, Resolved contents)] /\
    file_writes (trace run) = [("out.sql", default "" (fetch_body contents))] /\
    files (final run) =
      <["out.sql" := default "" (fetch_body contents)]> (files (world0 script_parts)).
Proof.
  split; [reflexivity|].
  apply (export_returns_after_write (scripted sql_body) 10 tt "mydb" "out.sql"
           ["users"] (Some true) None (world0 script_parts)).
  reflexivity.
Defined.

Lemma pollExport_polls_while_active_witness :
  let run := pollExport (Config := unit) always_active 7 "acct" {| uuid := "db-uuid" |}
               {| noSchema := None; noData := None; tables := [] |} None 0
               {| net := tt; files := ∅ |} in
  outcome run = Pending /\ length (api_calls (trace run)) = 7.
Proof.
  apply (pollExport_polls_while_active always_active).
  intros req net0. eexists. split; reflexivity.
Defined.

Lemma export_request_target_witness :
  exists req reply,
    api_calls (trace (scripted_export sql_body script_parts)) !! 2 = Some (req, reply) /\
    url req = "/accounts/acct/d1/database/db-uuid/export" /\
    method req = "POST".
Proof.
  eexists _, _. split; [reflexivity|].
  destruct (export_request_target (scripted sql_body) 10 tt "mydb" "out.sql"
              ["users"] (Some true) None (world0 script_parts) 2 _ _ eq_refl)
    as (acct & n1 & db & n2 & Hauth & Hdb & Hurl & Hmethod & _).
  injection Hauth as <- <-. injection Hdb as <- <-.
  split; [exact Hurl | exact Hmethod].
Defined.

Lemma export_prints_before_next_request_witness :
  let t := trace (scripted_export sql_body script_parts) in
  (exists req reply, t !! 5 = Some (ApiCall req reply)) /\
  console_lines (take 5 t) = [swirl +:+ "Uploaded part 1"; swirl +:+ "Fetching schema"] /\
  length (console_lines (take 5 t)) = length (received_lines (api_calls (take 5 t))).
Proof.
  cbn zeta. split; [eexists _, _; reflexivity|]. split; [reflexivity|].
  eapply (export_prints_before_next_request (scripted sql_body) 10 tt "mydb" "out.sql"
            ["users"] (Some true) None (world0 script_parts)).
  reflexivity.
Defined.

Lemma not_includes_by_search text piece :
  split_first piece text = None -> ~ includes text piece.
Proof. apply split_first_none. Qed.


Lemma latest_entrypoint_null_witness :
  fst (getLatestTypesEntrypoint
         (example_host (Resolved ["index.d.ts"; "experimental"]))
         (example_ctx None) example_project) = Resolved None.
Proof.
  destruct (latest_entrypoint_null
              (example_host (Resolved ["index.d.ts"; "experimental"]))
              (example_ctx None) example_project) as (_ & found & Hfound & Hnull).
  rewrite Hfound. f_equal. apply Hnull. right.
  eexists. split; [reflexivity|].
  intros f Hf. vm_compute in Hf.
  apply elem_of_cons in Hf as [->|Hf]; [reflexivity|].
  apply elem_of_cons in Hf as [->|Hf]; [reflexivity|].
  by apply elem_of_nil in Hf.
Defined.


Lemma latest_entrypoint_latest_date_witness :
  iso_date 2023 7 1 = "2023-07-01" /\
  fst (getLatestTypesEntrypoint (example_host (Resolved example_entrypoints))
         (example_ctx None) example_project) = Resolved (Some "2023-07-01").
Proof.
  split; [reflexivity|].
  apply (latest_entrypoint_latest_date (example_host (Resolved example_entrypoints))
           (example_ctx None) example_project example_entrypoints 2023 7 1).
  - reflexivity.
  - vm_compute. repeat split.
  - vm_compute. do 2 right. left.
  - intros f Hf Hdate. unfold example_entrypoints in Hf.
    repeat (apply elem_of_cons in Hf as [->|Hf]; [try discriminate Hdate|]).
    + exists 2022%N, 11%N, 30%N. vm_compute. repeat split; discriminate.
    + exists 2023%N, 7%N, 1%N. vm_compute. repeat split; discriminate.
    + exists 2023%N, 3%N, 1%N. vm_compute. repeat split; discriminate.
    + by apply elem_of_nil in Hf.
Defined.

Lemma updateTsConfig_only_tsconfig_witness :
  updateTsConfig (example_host (Resolved example_entrypoints)) (example_ctx None)
    example_project_js = (Resolved tt, example_project_js) /\
  disk (snd (updateTsConfig (example_host (Resolved example_entrypoints))
               (example_ctx None) example_project)) !! "/app/package.json" = Some "{}".
Proof.
  split.
  - apply (proj2 (updateTsConfig_only_tsconfig
                    (example_host (Resolved example_entrypoints)) (example_ctx None)
                    example_project_js)).
    reflexivity.
  - etrans;
      [apply (proj1 (updateTsConfig_only_tsconfig
                       (example_host (Resolved example_entrypoints)) (example_ctx None)
                       example_project) "/app/package.json"); discriminate
      | reflexivity].
Defined.


Lemma updateTsConfig_first_mention_witness :
  let before := "{ types: [" +:+ quote in
  let after := quote +:+ "] }" in
  disk (snd (updateTsConfig (example_host (Resolved example_entrypoints))
               (example_ctx None) example_project)) !! "/app/tsconfig.json" =
  Some (before +:+ "@cloudflare/workers-types/2023-07-01" +:+ after).
Proof.
  intros before after.
  assert (Hfirst : forall before' after',
            before +:+ "@cloudflare/workers-types" +:+ after =
            before' +:+ "@cloudflare/workers-types" +:+ after' ->
            String.length before <= String.length before').
  { apply (split_first_spec "@cloudflare/workers-types"
             (before +:+ "@cloudflare/workers-types" +:+ after) before after).
    reflexivity. }
  assert (Hplain : ~ includes "2023-07-01" "$")
    by (apply not_includes_by_search; reflexivity).
  pose proof (updateTsConfig_first_mention (example_host (Resolved example_entrypoints))
                (example_ctx None) example_project before after "2023-07-01"
                eq_refl Hfirst eq_refl Hplain) as Hdisk.
  exact (eq_trans (f_equal (fun files => files !! "/app/tsconfig.json") Hdisk) eq_refl).
Defined.

Lemma updateTsConfig_without_mention_witness :
  let once := snd (updateTsConfig (example_host (Resolved example_entrypoints))
                     (example_ctx None) example_project_plain) in
  disk once = disk example_project_plain /\
  shown once =
    [SpinnerStart "Adding latest types to `tsconfig.json`";
     SpinnerStop "added @cloudflare/workers-types/2023-07-01"].
Proof.
  apply (updateTsConfig_without_mention (example_host (Resolved example_entrypoints))
           (example_ctx None) example_project_plain "{ types: [] }" "2023-07-01").
  - reflexivity.
  - apply not_includes_by_search. reflexivity.
  - reflexivity.
Defined.

Lemma updateTsConfig_twice_witness :
  let host := example_host (Resolved example_entrypoints) in
  let once := snd (updateTsConfig host (example_ctx None) example_project) in
  disk (snd (updateTsConfig host (example_ctx None) once)) !! "/app/tsconfig.json" =
  Some ("{ types: [" +:+ quote +:+
        "@cloudflare/workers-types/2023-07-01/2023-07-01" +:+ quote +:+ "] }").
Proof.
  intros host once.
  pose (before := "{ types: [" +:+ quote). pose (after := quote +:+ "] }").
  assert (Hfirst : forall before' after',
            before +:+ "@cloudflare/workers-types" +:+ after =
            before' +:+ "@cloudflare/workers-types" +:+ after' ->
            String.length before <= String.length before').
  { apply (split_first_spec "@cloudflare/workers-types"
             (before +:+ "@cloudflare/workers-types" +:+ after) before after).
    reflexivity. }
  assert (Hplain : ~ includes "2023-07-01" "$")
    by (apply not_includes_by_search; reflexivity).
  destruct (updateTsConfig_twice host (example_ctx None) example_project
              before after "2023-07-01" eq_refl Hfirst eq_refl Hplain eq_refl)
    as [_ Htwice].
  exact (eq_trans Htwice eq_refl).
Defined.

Lemma installWorkersTypes_for_typescript_witness :
  installWorkersTypes (example_host (Resolved example_entrypoints))
    (example_ctx (Some false)) example_project = (Resolved tt, example_project) /\
  exists config rest,
    shown (snd (installWorkersTypes (example_host (Resolved example_entrypoints))
                  (example_ctx (Some true)) example_project)) =
      Installed ["@cloudflare/workers-types"] config :: rest /\
    dev config = true.
Proof.
  split.
  - apply (proj1 (installWorkersTypes_for_typescript
                    (example_host (Resolved example_entrypoints))
                    (example_ctx (Some false)) example_project)).
    discriminate.
  - apply (proj2 (installWorkersTypes_for_typescript
                    (example_host (Resolved example_entrypoints))
                    (example_ctx (Some true)) example_project)).
    reflexivity.
Defined.

